(** * Project credential handlers of kubesphere/devops

    A shallow embedding of the credential CRUD handlers of package
    [projects] (CreateCredentialHandler, DeleteCredentialHandler,
    UpdateCredentialHandler, GetCredentialHandler, GetCredentialsHandler)
    together with the sentinels of [pkg/db/error.go].

    Every handler is a straight-line script of calls into other packages
    (the request decoder, the role check, the Jenkins client, the query
    builder, the logger) with early returns.  The embedding keeps that
    shape: a handler is a finite tree of calls ([Prog]), each call is
    answered by the environment, and the handler returns the response it
    writes.  Running a handler in an environment yields the response, the
    final environment and the trace of calls with their answers. *)

From Stdlib Require Import ZArith Lia.
From stdpp Require Import base strings gmap list.

Set Default Proof Using "Type".

(** ** Constants of net/http used by the handlers *)
Module http.
Definition StatusBadRequest : Z := 400.
Definition StatusForbidden : Z := 403.
Definition StatusNotFound : Z := 404.
Definition StatusConflict : Z := 409.
Definition StatusInternalServerError : Z := 500.
End http.

(** ** pkg/db *)
Module db.
(** The package errors of [pkg/db/error.go], each an alias of the dbr
    sentinel of the same name. *)
Inductive sentinel : Set :=
| ErrNotFound
| ErrNotSupported
| ErrTableNotSpecified
| ErrColumnNotSpecified
| ErrInvalidPointer
| ErrPlaceholderCount
| ErrInvalidSliceLength
| ErrCantConvertToTime
| ErrInvalidTimestring.

#[global] Instance sentinel_eq_dec : EqDecision sentinel.
Proof. solve_decision. Defined.
End db.

(** Go [error] values.  The handlers compare an error with the sentinel
    [db.ErrNotFound], build errors with [fmt.Errorf], read the message
    with [Error()] and hand errors to [stringutils.GetJenkinsStatusCode];
    everything else about an error is opaque to them. *)
Inductive error : Set :=
| ErrDb (e : db.sentinel)
| Errorf (msg : string)
| ErrRemote (status : Z) (msg : string)
| ErrOther (msg : string).

#[global] Instance error_eq_dec : EqDecision error.
Proof. solve_decision. Defined.

(** [err.Error()].  The dbr sentinels print the messages dbr gives them;
    an error of the remote API and any other error print the message they
    carry. *)
Definition Error (e : error) : string :=
  match e with
  | ErrDb db.ErrNotFound => "dbr: not found"
  | ErrDb db.ErrNotSupported => "dbr: not supported"
  | ErrDb db.ErrTableNotSpecified => "dbr: table not specified"
  | ErrDb db.ErrColumnNotSpecified => "dbr: column not specified"
  | ErrDb db.ErrInvalidPointer => "dbr: attempt to load into an invalid pointer"
  | ErrDb db.ErrPlaceholderCount => "dbr: wrong placeholder count"
  | ErrDb db.ErrInvalidSliceLength => "dbr: length of slice is 0. length must be >= 1"
  | ErrDb db.ErrCantConvertToTime => "dbr: can't convert to time.Time"
  | ErrDb db.ErrInvalidTimestring => "dbr: invalid time string"
  | Errorf msg => msg
  | ErrRemote _ msg => msg
  | ErrOther msg => msg
  end.

(** JSON values, the dynamic content of [map[string]interface{}]. *)
#[warnings="-register-all"]
Inductive JSON : Set :=
| JNull
| JBool (b : bool)
| JNumber (literal : string)
| JString (s : string)
| JArray (items : list JSON)
| JObject (fields : list (string * JSON)).

(** ** Package models (ownership rows) *)
Module models.
(** Modelled from the spec: the struct [models.ProjectCredential] is not
    among the sources; the spec gives its columns as (project id,
    credential id, domain, creator, create time).  Time is kept as a
    number, the zero [time.Time] being [0]. *)
Record ProjectCredential : Set := {
  ProjectId : string;
  CredentialId : string;
  Domain : string;
  Creator : string;
  CreateTime : Z
}.

#[global] Instance ProjectCredential_eq_dec : EqDecision ProjectCredential.
Proof. solve_decision. Defined.

(** [&models.ProjectCredential{}] *)
Definition zero : ProjectCredential :=
  {| ProjectId := ""; CredentialId := ""; Domain := ""; Creator := ""; CreateTime := 0 |}.

(** The column names the handlers put in conditions. *)
Inductive Column : Set :=
| ProjectIdColumn
| ProjectCredentialIdColumn
| ProjectCredentialDomainColumn.

Inductive Table : Set := ProjectCredentialTableName.
End models.

Module dbr.
(** [db.Eq(column, value)] and [db.And(conds...)]. *)
#[warnings="-register-all"]
Inductive Builder : Set :=
| Eq (column : models.Column) (value : string)
| And (conds : list Builder).
End dbr.

(** ** Package gojenkins: the credential as the remote API reports it *)
Module gojenkins.
Record CredentialResponse : Set := {
  Id : string;
  TypeName : string;
  Fingerprint : string;
  Description : string;
  Domain : string
}.

(** The stapler classes and the scope the request structs carry. *)
Definition SSHCrenditalStaplerClass : string :=
  "com.cloudbees.jenkins.plugins.sshcredentials.impl.BasicSSHUserPrivateKey".
Definition DirectSSHCrenditalStaplerClass : string :=
  "com.cloudbees.jenkins.plugins.sshcredentials.impl.BasicSSHUserPrivateKey$DirectEntryPrivateKeySource".
Definition UsernamePassswordCredentialStaplerClass : string :=
  "com.cloudbees.plugins.credentials.impl.UsernamePasswordCredentialsImpl".
Definition SecretTextCredentialStaplerClass : string :=
  "org.jenkinsci.plugins.plaincredentials.impl.StringCredentialsImpl".
Definition GLOBALScope : string := "GLOBAL".

Module PrivateKeySource.
Record t : Set := mk {
  StaplerClass : string;
  PrivateKey : string
}.
End PrivateKeySource.

Module UsernamePasswordCredential.
Record t : Set := mk {
  Scope : string;
  Id : string;
  Username : string;
  Password : string;
  Description : string;
  StaplerClass : string
}.
End UsernamePasswordCredential.

Module SshCredential.
Record t : Set := mk {
  Scope : string;
  Id : string;
  Username : string;
  Passphrase : string;
  KeySource : PrivateKeySource.t;
  Description : string;
  StaplerClass : string
}.
End SshCredential.

Module SecretTextCredential.
Record t : Set := mk {
  Scope : string;
  Id : string;
  Secret : string;
  Description : string;
  StaplerClass : string
}.
End SecretTextCredential.

Module CreateSshCredentialRequest.
Record t : Set := mk { Credentials : SshCredential.t }.
End CreateSshCredentialRequest.

Module CreateUsernamePasswordCredentialRequest.
Record t : Set := mk { Credentials : UsernamePasswordCredential.t }.
End CreateUsernamePasswordCredentialRequest.

Module CreateSecretTextCredentialRequest.
Record t : Set := mk { Credentials : SecretTextCredential.t }.
End CreateSecretTextCredentialRequest.

Definition NewCreateSshCredentialRequest
    (id username passphrase privateKey description : string)
    : CreateSshCredentialRequest.t :=
  let keySource :=
    {| PrivateKeySource.StaplerClass := DirectSSHCrenditalStaplerClass;
       PrivateKeySource.PrivateKey := privateKey |} in
  let sshCredential :=
    {| SshCredential.Scope := GLOBALScope;
       SshCredential.Id := id;
       SshCredential.Username := username;
       SshCredential.Passphrase := passphrase;
       SshCredential.KeySource := keySource;
       SshCredential.Description := description;
       SshCredential.StaplerClass := SSHCrenditalStaplerClass |} in
  {| CreateSshCredentialRequest.Credentials := sshCredential |}.

Definition NewCreateUsernamePasswordRequest (id username password description : string)
    : CreateUsernamePasswordCredentialRequest.t :=
  let credential :=
    {| UsernamePasswordCredential.Scope := GLOBALScope;
       UsernamePasswordCredential.Id := id;
       UsernamePasswordCredential.Username := username;
       UsernamePasswordCredential.Password := password;
       UsernamePasswordCredential.Description := description;
       UsernamePasswordCredential.StaplerClass := UsernamePassswordCredentialStaplerClass |} in
  {| CreateUsernamePasswordCredentialRequest.Credentials := credential |}.

Definition NewCreateSecretTextCredentialRequest (id secret description : string)
    : CreateSecretTextCredentialRequest.t :=
  let credential :=
    {| SecretTextCredential.Scope := GLOBALScope;
       SecretTextCredential.Id := id;
       SecretTextCredential.Secret := secret;
       SecretTextCredential.Description := description;
       SecretTextCredential.StaplerClass := SecretTextCredentialStaplerClass |} in
  {| CreateSecretTextCredentialRequest.Credentials := credential |}.

Definition NewSshCredential (id username passphrase privateKey description : string)
    : SshCredential.t :=
  let keySource :=
    {| PrivateKeySource.StaplerClass := DirectSSHCrenditalStaplerClass;
       PrivateKeySource.PrivateKey := privateKey |} in
  {| SshCredential.Scope := GLOBALScope;
     SshCredential.Id := id;
     SshCredential.Username := username;
     SshCredential.Passphrase := passphrase;
     SshCredential.KeySource := keySource;
     SshCredential.Description := description;
     SshCredential.StaplerClass := SSHCrenditalStaplerClass |}.

Definition NewUsernamePasswordCredential (id username password description : string)
    : UsernamePasswordCredential.t :=
  {| UsernamePasswordCredential.Scope := GLOBALScope;
     UsernamePasswordCredential.Id := id;
     UsernamePasswordCredential.Username := username;
     UsernamePasswordCredential.Password := password;
     UsernamePasswordCredential.Description := description;
     UsernamePasswordCredential.StaplerClass := UsernamePassswordCredentialStaplerClass |}.

Definition NewSecretTextCredential (id secret description : string)
    : SecretTextCredential.t :=
  {| SecretTextCredential.Scope := GLOBALScope;
     SecretTextCredential.Id := id;
     SecretTextCredential.Secret := secret;
     SecretTextCredential.Description := description;
     SecretTextCredential.StaplerClass := SecretTextCredentialStaplerClass |}.
End gojenkins.

(** ** Package projects: request and response structs *)

Definition CredentialTypeUsernamePassword : string := "username_password".
Definition CredentialTypeSsh : string := "ssh".
Definition CredentialTypeSecretText : string := "secret_text".
Definition CredentialTypeKubeConfig : string := "kubeconfig".

Module CredentialRequest.
Record t : Set := mk {
  Type_ : string;
  Domain : string;
  Content : gmap string JSON
}.
Definition zero : t := mk "" "" ∅.
End CredentialRequest.

Module UsernamePasswordCredentialRequest.
Record t : Set := mk {
  Id : string;
  Username : string;
  Password : string;
  Description : string
}.
Definition zero : t := mk "" "" "" "".
End UsernamePasswordCredentialRequest.

Module SshCredentialRequest.
Record t : Set := mk {
  Id : string;
  Username : string;
  Passphrase : string;
  PrivateKey : string;
  Description : string
}.
Definition zero : t := mk "" "" "" "" "".
End SshCredentialRequest.

Module SecretTextCredentialRequest.
Record t : Set := mk {
  Id : string;
  Secret : string;
  Description : string
}.
Definition zero : t := mk "" "" "".
End SecretTextCredentialRequest.

Module KubeconfigCredentialRequest.
Record t : Set := mk {
  Id : string;
  Content : string;
  Description : string
}.
Definition zero : t := mk "" "" "".
End KubeconfigCredentialRequest.

Module DeleteCredentialRequest.
Record t : Set := mk { Domain : string }.
Definition zero : t := mk "".
End DeleteCredentialRequest.

Module CredentialResponse.
Record Range : Set := { Start : Z; End_ : Z }.
Record Usage : Set := { Name : string; Ranges : list Range }.
Record FingerprintT : Set := { FileName : string; Hash : string; Usages : list Usage }.
Record t : Set := mk {
  Id : string;
  Type_ : string;
  DisplayName : string;
  Fingerprint : option FingerprintT;
  Description : string;
  Domain : string;
  CreateTime : option Z;
  Creator : string;
  Content : gmap string JSON
}.
Definition with_Content (c : gmap string JSON) (r : t) : t :=
  mk (Id r) (Type_ r) (DisplayName r) (Fingerprint r) (Description r)
     (Domain r) (CreateTime r) (Creator r) c.
End CredentialResponse.

(** The incoming [rest.Request]: path parameters, query values and the raw
    body. *)
Record Request : Set := {
  PathParams : gmap string string;
  Query : gmap string (list string);
  Header : gmap string string;
  Body : string
}.

(** [r.PathParams[key]]: a missing key reads as the empty string. *)
Definition PathParam (r : Request) (key : string) : string :=
  default "" (PathParams r !! key).

(** [r.URL.Query().Get(key)]: the first value of the key, or the empty
    string. *)
Definition Query_Get (r : Request) (key : string) : string :=
  match Query r !! key with
  | Some (v :: _) => v
  | _ => ""
  end.

(** [govalidator.IsNull]: the string has length zero. *)
Definition IsNull (str : string) : bool := bool_decide (str = "").

(** A parsed HTML document as goquery shows it to the handler: what
    [doc.Find(selector)] selects, and for a selection its text and its
    attributes. *)
Record Selection : Set := {
  Text : string;
  Attr : list (string * string)
}.

Record Document : Set := { Find : string → list Selection }.

(** [value, _ := selection.Attr(name)] *)
Definition Attr_value (s : Selection) (name : string) : string :=
  default "" (snd <$> head (filter (λ kv, kv.1 = name) (Attr s))).

(** ** Calls that leave the handler

    One constructor per function or method of another package that a
    handler calls; the index is the type of what the call returns.  A Go
    result [(value, err)] is a pair whose second component is [None] for a
    nil error; a pointer result is an [option]. *)
Inductive Call : Type → Type :=
(* go-json-rest: r.DecodeJsonPayload(request) *)
| DecodeJsonPayload_CredentialRequest (r : Request)
  : Call (CredentialRequest.t * option error)
| DecodeJsonPayload_DeleteCredentialRequest (r : Request)
  : Call (DeleteCredentialRequest.t * option error)
(* s.checkProjectUserInRole(operator, projectId, roles) *)
| checkProjectUserInRole (operator projectId : string) (roles : list string)
  : Call (option error)
(* mapstructure.Decode(input, output): the struct after the call, and the error *)
| Decode_UsernamePassword (input : gmap string JSON) (output : UsernamePasswordCredentialRequest.t)
  : Call (UsernamePasswordCredentialRequest.t * option error)
| Decode_Ssh (input : gmap string JSON) (output : SshCredentialRequest.t)
  : Call (SshCredentialRequest.t * option error)
| Decode_SecretText (input : gmap string JSON) (output : SecretTextCredentialRequest.t)
  : Call (SecretTextCredentialRequest.t * option error)
| Decode_Kubeconfig (input : gmap string JSON) (output : KubeconfigCredentialRequest.t)
  : Call (KubeconfigCredentialRequest.t * option error)
(* s.Ds.Jenkins *)
| GetCredentialInFolder (domain id folder : string)
  : Call (option gojenkins.CredentialResponse * option error)
| GetCredentialsInFolder (domain folder : string)
  : Call (list gojenkins.CredentialResponse * option error)
| GetCredentialContentInFolder (domain id folder : string)
  : Call (string * option error)
| CreateUsernamePasswordCredentialInFolder (domain id username password description folder : string)
  : Call (option string * option error)
| CreateSshCredentialInFolder (domain id username passphrase privateKey description folder : string)
  : Call (option string * option error)
| CreateSecretTextCredentialInFolder (domain id secret description folder : string)
  : Call (option string * option error)
| CreateKubeconfigCredentialInFolder (domain id content description folder : string)
  : Call (option string * option error)
| UpdateUsernamePasswordCredentialInFolder (domain id username password description folder : string)
  : Call (option string * option error)
| UpdateSshCredentialInFolder (domain id username passphrase privateKey description folder : string)
  : Call (option string * option error)
| UpdateSecretTextCredentialInFolder (domain id secret description folder : string)
  : Call (option string * option error)
| UpdateKubeconfigCredentialInFolder (domain id content description folder : string)
  : Call (option string * option error)
| DeleteCredentialInFolder (domain id folder : string)
  : Call (option string * option error)
(* s.Ds.Db: InsertInto(table).Columns(all...).Record(row).Exec() *)
| InsertInto (table : models.Table) (record : models.ProjectCredential)
  : Call (option error)
(* s.Ds.Db: DeleteFrom(table).Where(cond).Exec() *)
| DeleteFrom (table : models.Table) (cond : dbr.Builder)
  : Call (option error)
(* s.Ds.Db: Select(all...).From(table).Where(cond).LoadOne(dest): the row
   written into dest, if one was, and the error *)
| Select_LoadOne (table : models.Table) (cond : dbr.Builder)
  : Call (option models.ProjectCredential * option error)
(* s.Ds.Db: Select(all...).From(table).Where(cond).Load(&rows) *)
| Select_Load (table : models.Table) (cond : dbr.Builder)
  : Call (list models.ProjectCredential * option error)
(* goquery.NewDocumentFromReader(strings.NewReader(body)) *)
| NewDocumentFromReader (body : string)
  : Call (Document * option error)
(* logger.Error("%+v", err), logger.Warn(msg) *)
| logger_Error (err : error) : Call unit
| logger_Warn (msg : string) : Call unit.

(** A handler script: return, or make a call and go on with its answer. *)
Inductive Prog (R : Type) : Type :=
| Ret (r : R)
| Vis {T : Type} (c : Call T) (k : T → Prog R).
Arguments Ret {R} r.
Arguments Vis {R T} c k.

Notation "'call!' x := c 'in' k" := (Vis c (λ x, k))
  (at level 10, x name, c at level 100, k at level 200, only parsing).
Notation "'call!' ' p := c 'in' k" := (Vis c (λ p, k))
  (at level 10, p pattern, c at level 100, k at level 200, only parsing).

(** What a handler writes to the [rest.ResponseWriter]. *)
Inductive JsonBody : Set :=
| IdBody (Id : string)                              (* struct{ Id string `json:"id"` } *)
| CredentialBody (c : CredentialResponse.t)
| CredentialsBody (cs : list CredentialResponse.t).

Inductive Response : Set :=
| rest_Error (msg : string) (code : Z)      (* rest.Error(w, msg, code) *)
| WriteJson (v : JsonBody)                  (* w.WriteJson(v) *)
| nil_dereference.                          (* the run-time panic of *p or p.f on a nil p *)

(** The HTTP status of a response; [w.WriteJson] answers 200. *)
Definition status (resp : Response) : option Z :=
  match resp with
  | rest_Error _ code => Some code
  | WriteJson _ => Some 200%Z
  | nil_dereference => None
  end.

(** [w.WriteJson(struct{Id}{Id: *id})] *)
Definition WriteJson_Id (id : option string) : Prog Response :=
  match id with
  | Some id => Ret (WriteJson (IdBody id))
  | None => Ret nil_dereference
  end.

(** Symbols of the repository that the handlers use and whose definitions
    are not among the sources at hand.  They are taken as given; the
    handlers are stated for any choice of them. *)
Class Package : Type := {
  (* the role names in the permission list *)
  ProjectOwner : string;
  ProjectMaintainer : string;
  (* userutils.GetUserNameFromRequest(r) *)
  GetUserNameFromRequest : Request → string;
  (* stringutils.GetJenkinsStatusCode(err): the status code an error stands for *)
  GetJenkinsStatusCode : error → Z;
  (* CredentialTypeMap: remote type name to credential type *)
  CredentialTypeMap : gmap string string;
  (* models.NewProjectCredential(projectId, credentialId, domain, creator) *)
  NewProjectCredential : string → string → string → string → models.ProjectCredential;
  (* formatCredentialResponse(jenkinsCredential, projectCredential) *)
  formatCredentialResponse :
    gojenkins.CredentialResponse → models.ProjectCredential → CredentialResponse.t;
  (* formatCredentialsResponse(jenkinsCredentials, projectCredentials) *)
  formatCredentialsResponse :
    list gojenkins.CredentialResponse → list models.ProjectCredential →
    list CredentialResponse.t
}.

Section Handlers.
Context `{Package}.

(** The recurring error exit:
    [logger.Error("%+v", err); rest.Error(w, err.Error(), code); return]. *)
Definition fail (err : error) (code : Z) : Prog Response :=
  call! _ := logger_Error err in
  Ret (rest_Error (Error err) code).

(** The condition [err != nil && cond(err)]: the error that takes the
    exit, if any. *)
Definition nonnil_and (err : option error) (cond : error → bool) : option error :=
  match err with
  | Some err => if cond err then Some err else None
  | None => None
  end.

Definition CreateCredentialHandler (r : Request) : Prog Response :=
  let projectId := PathParam r "id" in
  let operator := GetUserNameFromRequest r in
  call! '(request, err) := DecodeJsonPayload_CredentialRequest r in
  match err with Some err => fail err http.StatusBadRequest | None =>
  call! err := checkProjectUserInRole operator projectId [ProjectOwner; ProjectMaintainer] in
  match err with Some err => fail err http.StatusForbidden | None =>
  let domain := CredentialRequest.Domain request in
  if decide (CredentialRequest.Type_ request = CredentialTypeUsernamePassword) then
    call! '(UPRequest, err) :=
      Decode_UsernamePassword (CredentialRequest.Content request)
                              UsernamePasswordCredentialRequest.zero in
    match err with Some err => fail err http.StatusBadRequest | None =>
    let id := UsernamePasswordCredentialRequest.Id UPRequest in
    call! '(credential, err) := GetCredentialInFolder domain id projectId in
    match credential with
    | Some credential =>
        let err := Errorf ("credential id [" +:+ gojenkins.Id credential +:+ "] has been used") in
        call! _ := logger_Warn (Error err) in
        Ret (rest_Error (Error err) http.StatusConflict)
    | None =>
    match nonnil_and err (λ err, bool_decide (GetJenkinsStatusCode err ≠ http.StatusNotFound)) with
    | Some err => fail err http.StatusBadRequest
    | None =>
    call! '(credentialId, err) :=
      CreateUsernamePasswordCredentialInFolder domain id
        (UsernamePasswordCredentialRequest.Username UPRequest)
        (UsernamePasswordCredentialRequest.Password UPRequest)
        (UsernamePasswordCredentialRequest.Description UPRequest) projectId in
    match err with Some err => fail err (GetJenkinsStatusCode err) | None =>
    let projectCredential := NewProjectCredential projectId id domain operator in
    call! err := InsertInto models.ProjectCredentialTableName projectCredential in
    match err with Some err => fail err (GetJenkinsStatusCode err) | None =>
    WriteJson_Id credentialId
    end end end end end
  else if decide (CredentialRequest.Type_ request = CredentialTypeSsh) then
    call! '(SshRequest, err) :=
      Decode_Ssh (CredentialRequest.Content request) SshCredentialRequest.zero in
    match err with Some err => fail err http.StatusBadRequest | None =>
    let id := SshCredentialRequest.Id SshRequest in
    call! '(credential, err) := GetCredentialInFolder domain id projectId in
    match credential with
    | Some credential =>
        let err := Errorf ("credential id [" +:+ gojenkins.Id credential +:+ "] has been used") in
        call! _ := logger_Warn (Error err) in
        Ret (rest_Error (Error err) http.StatusConflict)
    | None =>
    match nonnil_and err (λ err, bool_decide (GetJenkinsStatusCode err ≠ http.StatusNotFound)) with
    | Some err => fail err http.StatusBadRequest
    | None =>
    call! '(credentialId, err) :=
      CreateSshCredentialInFolder domain id
        (SshCredentialRequest.Username SshRequest)
        (SshCredentialRequest.Passphrase SshRequest)
        (SshCredentialRequest.PrivateKey SshRequest)
        (SshCredentialRequest.Description SshRequest) projectId in
    match err with Some err => fail err (GetJenkinsStatusCode err) | None =>
    let projectCredential := NewProjectCredential projectId id domain operator in
    call! err := InsertInto models.ProjectCredentialTableName projectCredential in
    match err with Some err => fail err (GetJenkinsStatusCode err) | None =>
    WriteJson_Id credentialId
    end end end end end
  else if decide (CredentialRequest.Type_ request = CredentialTypeSecretText) then
    call! '(TextRequest, err) :=
      Decode_SecretText (CredentialRequest.Content request) SecretTextCredentialRequest.zero in
    match err with Some err => fail err http.StatusBadRequest | None =>
    let id := SecretTextCredentialRequest.Id TextRequest in
    call! '(credential, err) := GetCredentialInFolder domain id projectId in
    match credential with
    | Some credential =>
        let err := Errorf ("credential id [" +:+ gojenkins.Id credential +:+ "] has been used") in
        call! _ := logger_Warn (Error err) in
        Ret (rest_Error (Error err) http.StatusConflict)
    | None =>
    match nonnil_and err (λ err, bool_decide (GetJenkinsStatusCode err ≠ http.StatusNotFound)) with
    | Some err => fail err http.StatusBadRequest
    | None =>
    call! '(credentialId, err) :=
      CreateSecretTextCredentialInFolder domain id
        (SecretTextCredentialRequest.Secret TextRequest)
        (SecretTextCredentialRequest.Description TextRequest) projectId in
    match err with Some err => fail err (GetJenkinsStatusCode err) | None =>
    let projectCredential := NewProjectCredential projectId id domain operator in
    call! err := InsertInto models.ProjectCredentialTableName projectCredential in
    match err with Some err => fail err (GetJenkinsStatusCode err) | None =>
    WriteJson_Id credentialId
    end end end end end
  else if decide (CredentialRequest.Type_ request = CredentialTypeKubeConfig) then
    call! '(KubeconfigRequest, err) :=
      Decode_Kubeconfig (CredentialRequest.Content request) KubeconfigCredentialRequest.zero in
    match err with Some err => fail err http.StatusBadRequest | None =>
    let id := KubeconfigCredentialRequest.Id KubeconfigRequest in
    call! '(credential, err) := GetCredentialInFolder domain id projectId in
    match credential with
    | Some credential =>
        let err := Errorf ("credential id [" +:+ gojenkins.Id credential +:+ "] has been used") in
        call! _ := logger_Warn (Error err) in
        Ret (rest_Error (Error err) http.StatusConflict)
    | None =>
    match nonnil_and err (λ err, bool_decide (GetJenkinsStatusCode err ≠ http.StatusNotFound)) with
    | Some err => fail err http.StatusBadRequest
    | None =>
    call! '(credentialId, err) :=
      CreateKubeconfigCredentialInFolder domain id
        (KubeconfigCredentialRequest.Content KubeconfigRequest)
        (KubeconfigCredentialRequest.Description KubeconfigRequest) projectId in
    match err with Some err => fail err (GetJenkinsStatusCode err) | None =>
    let projectCredential := NewProjectCredential projectId id domain operator in
    call! err := InsertInto models.ProjectCredentialTableName projectCredential in
    match err with Some err => fail err (GetJenkinsStatusCode err) | None =>
    WriteJson_Id credentialId
    end end end end end
  else
    let err := Errorf "error unsupport  credential type" in
    fail err (GetJenkinsStatusCode err)
  end end.

Definition DeleteCredentialHandler (r : Request) : Prog Response :=
  let projectId := PathParam r "id" in
  let credentialId := PathParam r "cid" in
  let operator := GetUserNameFromRequest r in
  call! '(request, err) := DecodeJsonPayload_DeleteCredentialRequest r in
  match err with Some err => fail err http.StatusBadRequest | None =>
  call! err := checkProjectUserInRole operator projectId [ProjectOwner; ProjectMaintainer] in
  match err with Some err => fail err http.StatusForbidden | None =>
  let domain := DeleteCredentialRequest.Domain request in
  call! '(id, err) := DeleteCredentialInFolder domain credentialId projectId in
  match err with Some err => fail err (GetJenkinsStatusCode err) | None =>
  let deleteConditions := [] ++ [dbr.Eq models.ProjectIdColumn projectId] in
  let deleteConditions :=
    deleteConditions ++ [dbr.Eq models.ProjectCredentialIdColumn credentialId] in
  let deleteConditions :=
    if negb (IsNull domain)
    then deleteConditions ++ [dbr.Eq models.ProjectCredentialDomainColumn domain]
    else deleteConditions ++ [dbr.Eq models.ProjectCredentialDomainColumn "_"] in
  call! err := DeleteFrom models.ProjectCredentialTableName (dbr.And deleteConditions) in
  match nonnil_and err (λ err, bool_decide (err ≠ ErrDb db.ErrNotFound)) with
  | Some err => fail err (GetJenkinsStatusCode err)
  | None => WriteJson_Id id
  end end end end.
Definition UpdateCredentialHandler (r : Request) : Prog Response :=
  let projectId := PathParam r "id" in
  let operator := GetUserNameFromRequest r in
  let credentialId := PathParam r "cid" in
  call! '(request, err) := DecodeJsonPayload_CredentialRequest r in
  match err with Some err => fail err http.StatusBadRequest | None =>
  call! err := checkProjectUserInRole operator projectId [ProjectOwner; ProjectMaintainer] in
  match err with Some err => fail err http.StatusForbidden | None =>
  let domain := CredentialRequest.Domain request in
  call! '(jenkinsCredential, err) := GetCredentialInFolder domain credentialId projectId in
  match err with Some err => fail err (GetJenkinsStatusCode err) | None =>
  match jenkinsCredential with None => Ret nil_dereference | Some jenkinsCredential =>
  let credentialType := default "" (CredentialTypeMap !! gojenkins.TypeName jenkinsCredential) in
  if decide (credentialType = CredentialTypeUsernamePassword) then
    let UPRequest := UsernamePasswordCredentialRequest.mk credentialId "" "" "" in
    call! '(UPRequest, err) :=
      Decode_UsernamePassword (CredentialRequest.Content request) UPRequest in
    match err with Some err => fail err http.StatusBadRequest | None =>
    call! '(credentialId, err) :=
      UpdateUsernamePasswordCredentialInFolder domain
        (UsernamePasswordCredentialRequest.Id UPRequest)
        (UsernamePasswordCredentialRequest.Username UPRequest)
        (UsernamePasswordCredentialRequest.Password UPRequest)
        (UsernamePasswordCredentialRequest.Description UPRequest) projectId in
    match err with Some err => fail err (GetJenkinsStatusCode err) | None =>
    WriteJson_Id credentialId
    end end
  else if decide (credentialType = CredentialTypeSsh) then
    let SshRequest := SshCredentialRequest.mk credentialId "" "" "" "" in
    call! '(SshRequest, err) :=
      Decode_Ssh (CredentialRequest.Content request) SshRequest in
    match err with Some err => fail err http.StatusBadRequest | None =>
    call! '(credentialId, err) :=
      UpdateSshCredentialInFolder domain
        (SshCredentialRequest.Id SshRequest)
        (SshCredentialRequest.Username SshRequest)
        (SshCredentialRequest.Passphrase SshRequest)
        (SshCredentialRequest.PrivateKey SshRequest)
        (SshCredentialRequest.Description SshRequest) projectId in
    match err with Some err => fail err http.StatusInternalServerError | None =>
    WriteJson_Id credentialId
    end end
  else if decide (credentialType = CredentialTypeSecretText) then
    let TextRequest := SecretTextCredentialRequest.mk credentialId "" "" in
    call! '(TextRequest, err) :=
      Decode_SecretText (CredentialRequest.Content request) TextRequest in
    match err with Some err => fail err http.StatusBadRequest | None =>
    call! '(credentialId, err) :=
      UpdateSecretTextCredentialInFolder domain
        (SecretTextCredentialRequest.Id TextRequest)
        (SecretTextCredentialRequest.Secret TextRequest)
        (SecretTextCredentialRequest.Description TextRequest) projectId in
    match err with Some err => fail err (GetJenkinsStatusCode err) | None =>
    WriteJson_Id credentialId
    end end
  else if decide (credentialType = CredentialTypeKubeConfig) then
    let KubeconfigRequest := KubeconfigCredentialRequest.mk credentialId "" "" in
    call! '(KubeconfigRequest, err) :=
      Decode_Kubeconfig (CredentialRequest.Content request) KubeconfigRequest in
    match err with Some err => fail err http.StatusBadRequest | None =>
    call! '(credentialId, err) :=
      UpdateKubeconfigCredentialInFolder domain
        (KubeconfigCredentialRequest.Id KubeconfigRequest)
        (KubeconfigCredentialRequest.Content KubeconfigRequest)
        (KubeconfigCredentialRequest.Description KubeconfigRequest) projectId in
    match err with Some err => fail err (GetJenkinsStatusCode err) | None =>
    WriteJson_Id credentialId
    end end
  else
    let err := Errorf ("error unsupport credential type " +:+ credentialType) in
    fail err http.StatusBadRequest
  end end end end.

(** [doc.Find(selector).Each(func(...) { field = value })]: the field
    ends as the value of the last selection, or unchanged. *)
Definition Each_assign (selections : list Selection) (value : Selection → string)
    (field : string) : string :=
  foldl (λ _ selection, value selection) field selections.

(** [json.Marshal] of the three content structs, by their json tags;
    [password] is tagged omitempty. *)
Definition Marshal_Kubeconfig (c : KubeconfigCredentialRequest.t) : list (string * JSON) :=
  [("id", JString (KubeconfigCredentialRequest.Id c));
   ("content", JString (KubeconfigCredentialRequest.Content c));
   ("description", JString (KubeconfigCredentialRequest.Description c))].

Definition Marshal_UsernamePassword (c : UsernamePasswordCredentialRequest.t)
    : list (string * JSON) :=
  [("id", JString (UsernamePasswordCredentialRequest.Id c));
   ("username", JString (UsernamePasswordCredentialRequest.Username c))]
  ++ (if decide (UsernamePasswordCredentialRequest.Password c = "") then []
      else [("password", JString (UsernamePasswordCredentialRequest.Password c))])
  ++ [("description", JString (UsernamePasswordCredentialRequest.Description c))].

Definition Marshal_Ssh (c : SshCredentialRequest.t) : list (string * JSON) :=
  [("id", JString (SshCredentialRequest.Id c));
   ("username", JString (SshCredentialRequest.Username c));
   ("passphrase", JString (SshCredentialRequest.Passphrase c));
   ("private_key", JString (SshCredentialRequest.PrivateKey c));
   ("description", JString (SshCredentialRequest.Description c))].

(** [json.Unmarshal(object, &m)] into a map: every key of the object is
    set in [m], the other keys of [m] stay. *)
Definition Unmarshal_into (object : list (string * JSON)) (m : gmap string JSON)
    : gmap string JSON :=
  foldl (λ m kv, <[kv.1 := kv.2]> m) m object.

(** The [switch response.Type] of GetCredentialHandler, which fills
    [response.Content] from the configuration page. *)
Definition scrape_content (doc : Document) (response : CredentialResponse.t)
    : CredentialResponse.t :=
  let value selection := Attr_value selection "value" in
  if decide (CredentialResponse.Type_ response = CredentialTypeKubeConfig) then
    let content := KubeconfigCredentialRequest.mk
      (Each_assign (Find doc "input[name*=id][type=text]") value "")
      (Each_assign (Find doc "textarea[name*=content]") Text "")
      (Each_assign (Find doc "input[name*=description]") value "") in
    CredentialResponse.with_Content
      (Unmarshal_into (Marshal_Kubeconfig content) (CredentialResponse.Content response))
      response
  else if decide (CredentialResponse.Type_ response = CredentialTypeUsernamePassword) then
    let content := UsernamePasswordCredentialRequest.mk
      (Each_assign (Find doc "input[name*=id][type=text]") value "")
      (Each_assign (Find doc "input[name*=username]") value "")
      ""
      (Each_assign (Find doc "input[name*=description]") value "") in
    CredentialResponse.with_Content
      (Unmarshal_into (Marshal_UsernamePassword content) (CredentialResponse.Content response))
      response
  else if decide (CredentialResponse.Type_ response = CredentialTypeSsh) then
    let content := SshCredentialRequest.mk
      (Each_assign (Find doc "input[name*=id][type=text]") value "")
      (Each_assign (Find doc "input[name*=username]") value "")
      ""
      (Each_assign (Find doc "textarea[name*=privateKey]") Text "")
      (Each_assign (Find doc "input[name*=description]") value "") in
    CredentialResponse.with_Content
      (Unmarshal_into (Marshal_Ssh content) (CredentialResponse.Content response))
      response
  else response.

Definition GetCredentialHandler (r : Request) : Prog Response :=
  let getContent := Query_Get r "content" in
  let projectId := PathParam r "id" in
  let operator := GetUserNameFromRequest r in
  let credentialId := PathParam r "cid" in
  let domain := Query_Get r "domain" in
  call! err := checkProjectUserInRole operator projectId [ProjectOwner; ProjectMaintainer] in
  match err with Some err => fail err http.StatusForbidden | None =>
  call! '(credentialResponse, err) := GetCredentialInFolder domain credentialId projectId in
  match err with Some err => fail err (GetJenkinsStatusCode err) | None =>
  match credentialResponse with None => Ret nil_dereference | Some credentialResponse =>
  let projectCredential := models.zero in
  call! '(loaded, err) :=
    Select_LoadOne models.ProjectCredentialTableName
      (dbr.And [dbr.Eq models.ProjectIdColumn projectId;
                dbr.Eq models.ProjectCredentialIdColumn (gojenkins.Id credentialResponse);
                dbr.Eq models.ProjectCredentialDomainColumn
                       (gojenkins.Domain credentialResponse)]) in
  let projectCredential := default projectCredential loaded in
  match nonnil_and err (λ err, bool_decide (err ≠ ErrDb db.ErrNotFound)) with
  | Some err => fail err (GetJenkinsStatusCode err)
  | None =>
  let response := formatCredentialResponse credentialResponse projectCredential in
  if decide (getContent ≠ "") then
    call! '(stringBody, err) := GetCredentialContentInFolder domain credentialId projectId in
    match err with Some err => fail err (GetJenkinsStatusCode err) | None =>
    call! '(doc, err) := NewDocumentFromReader stringBody in
    match err with Some err => fail err (GetJenkinsStatusCode err) | None =>
    Ret (WriteJson (CredentialBody (scrape_content doc response)))
    end end
  else Ret (WriteJson (CredentialBody response))
  end end end end.

Definition GetCredentialsHandler (r : Request) : Prog Response :=
  let projectId := PathParam r "id" in
  let operator := GetUserNameFromRequest r in
  let domain := Query_Get r "domain" in
  call! err := checkProjectUserInRole operator projectId [ProjectOwner; ProjectMaintainer] in
  match err with Some err => fail err http.StatusForbidden | None =>
  call! '(jenkinsCredentialResponses, err) := GetCredentialsInFolder domain projectId in
  match err with Some err => fail err (GetJenkinsStatusCode err) | None =>
  let selectCondition := dbr.Eq models.ProjectIdColumn projectId in
  let selectCondition :=
    if negb (IsNull domain)
    then dbr.And [selectCondition; dbr.Eq models.ProjectCredentialDomainColumn domain]
    else selectCondition in
  call! '(projectCredentials, err) :=
    Select_Load models.ProjectCredentialTableName selectCondition in
  match err with Some err => fail err (GetJenkinsStatusCode err) | None =>
  let response := formatCredentialsResponse jenkinsCredentialResponses projectCredentials in
  Ret (WriteJson (CredentialsBody response))
  end end end.
End Handlers.

(** ** Running a handler

    An event is a call together with the answer it got. *)
Inductive Event : Type :=
| Ev {T : Type} (c : Call T) (a : T).

Section Run.
Context {W : Type}.
(** How the environment, in state [w], answers a call, and the state it
    is left in. *)
Variable exec : ∀ T, Call T → W → T * W.

(** The response, the final environment and the trace of a script. *)
Fixpoint run {R : Type} (p : Prog R) (w : W) : R * W * list Event :=
  match p with
  | Ret r => (r, w, [])
  | Vis c k =>
      let aw := exec _ c w in
      let res := run (k aw.1) aw.2 in
      (res.1.1, res.1.2, Ev c aw.1 :: res.2)
  end.

Definition response_of {R : Type} (res : R * W * list Event) : R := res.1.1.
Definition world_of {R : Type} (res : R * W * list Event) : W := res.1.2.
Definition trace_of {R : Type} (res : R * W * list Event) : list Event := res.2.
End Run.

(** A property of (trace, result) that holds whatever the calls answer. *)
Fixpoint always {R : Type} (p : Prog R) (P : list Event → R → Prop) : Prop :=
  match p with
  | Ret r => P [] r
  | Vis c k => ∀ a, always (k a) (λ tr, P (Ev c a :: tr))
  end.

(** ** Reading traces *)

(** Calls to the remote credential API (methods of [s.Ds.Jenkins]). *)
Definition remote_call {T : Type} (c : Call T) : bool :=
  match c with
  | GetCredentialInFolder _ _ _
  | GetCredentialsInFolder _ _
  | GetCredentialContentInFolder _ _ _
  | CreateUsernamePasswordCredentialInFolder _ _ _ _ _ _
  | CreateSshCredentialInFolder _ _ _ _ _ _ _
  | CreateSecretTextCredentialInFolder _ _ _ _ _
  | CreateKubeconfigCredentialInFolder _ _ _ _ _
  | UpdateUsernamePasswordCredentialInFolder _ _ _ _ _ _
  | UpdateSshCredentialInFolder _ _ _ _ _ _ _
  | UpdateSecretTextCredentialInFolder _ _ _ _ _
  | UpdateKubeconfigCredentialInFolder _ _ _ _ _
  | DeleteCredentialInFolder _ _ _ => true
  | _ => false
  end.

(** Remote calls that create a credential. *)
Definition create_call {T : Type} (c : Call T) : bool :=
  match c with
  | CreateUsernamePasswordCredentialInFolder _ _ _ _ _ _
  | CreateSshCredentialInFolder _ _ _ _ _ _ _
  | CreateSecretTextCredentialInFolder _ _ _ _ _
  | CreateKubeconfigCredentialInFolder _ _ _ _ _ => true
  | _ => false
  end.

(** Remote calls that update a credential. *)
Definition update_call {T : Type} (c : Call T) : bool :=
  match c with
  | UpdateUsernamePasswordCredentialInFolder _ _ _ _ _ _
  | UpdateSshCredentialInFolder _ _ _ _ _ _ _
  | UpdateSecretTextCredentialInFolder _ _ _ _ _
  | UpdateKubeconfigCredentialInFolder _ _ _ _ _ => true
  | _ => false
  end.

(** Remote calls that change the remote store. *)
Definition remote_mutation {T : Type} (c : Call T) : bool :=
  match c with
  | DeleteCredentialInFolder _ _ _ => true
  | c => create_call c || update_call c
  end.

(** Calls to the local store (methods of [s.Ds.Db]), and those that write. *)
Definition local_call {T : Type} (c : Call T) : bool :=
  match c with
  | InsertInto _ _ | DeleteFrom _ _ | Select_LoadOne _ _ | Select_Load _ _ => true
  | _ => false
  end.

Definition local_write {T : Type} (c : Call T) : bool :=
  match c with
  | InsertInto _ _ | DeleteFrom _ _ => true
  | _ => false
  end.

Definition on_call (f : ∀ T, Call T → bool) (ev : Event) : bool :=
  match ev with Ev c _ => f _ c end.

(** The error a call answered with, if it answered with one. *)
Definition call_error {T : Type} (c : Call T) : T → option error :=
  match c in Call T return T → option error with
  | DecodeJsonPayload_CredentialRequest _ => snd
  | DecodeJsonPayload_DeleteCredentialRequest _ => snd
  | checkProjectUserInRole _ _ _ => id
  | Decode_UsernamePassword _ _ => snd
  | Decode_Ssh _ _ => snd
  | Decode_SecretText _ _ => snd
  | Decode_Kubeconfig _ _ => snd
  | GetCredentialInFolder _ _ _ => snd
  | GetCredentialsInFolder _ _ => snd
  | GetCredentialContentInFolder _ _ _ => snd
  | CreateUsernamePasswordCredentialInFolder _ _ _ _ _ _ => snd
  | CreateSshCredentialInFolder _ _ _ _ _ _ _ => snd
  | CreateSecretTextCredentialInFolder _ _ _ _ _ => snd
  | CreateKubeconfigCredentialInFolder _ _ _ _ _ => snd
  | UpdateUsernamePasswordCredentialInFolder _ _ _ _ _ _ => snd
  | UpdateSshCredentialInFolder _ _ _ _ _ _ _ => snd
  | UpdateSecretTextCredentialInFolder _ _ _ _ _ => snd
  | UpdateKubeconfigCredentialInFolder _ _ _ _ _ => snd
  | DeleteCredentialInFolder _ _ _ => snd
  | InsertInto _ _ => id
  | DeleteFrom _ _ => id
  | Select_LoadOne _ _ => snd
  | Select_Load _ _ => snd
  | NewDocumentFromReader _ => snd
  | logger_Error _ => λ _, None
  | logger_Warn _ => λ _, None
  end.

Definition event_error (ev : Event) : option error :=
  match ev with Ev c a => call_error c a end.

(** The call answered without an error. *)
Definition succeeded (ev : Event) : bool :=
  match event_error ev with None => true | Some _ => false end.

(** The role check, and a role check that passed. *)
Definition role_check {T : Type} (c : Call T) : bool :=
  match c with checkProjectUserInRole _ _ _ => true | _ => false end.

Definition authorized (ev : Event) : bool :=
  on_call (@role_check) ev && succeeded ev.

(** Decoding of the request body and of the type-specific payload. *)
Definition decode_call {T : Type} (c : Call T) : bool :=
  match c with
  | DecodeJsonPayload_CredentialRequest _
  | DecodeJsonPayload_DeleteCredentialRequest _
  | Decode_UsernamePassword _ _
  | Decode_Ssh _ _
  | Decode_SecretText _ _
  | Decode_Kubeconfig _ _ => true
  | _ => false
  end.

(** The credential that [GetCredentialInFolder] returned, if the event is
    such a call and the pointer was not nil. *)
Definition fetched_credential (ev : Event) : option gojenkins.CredentialResponse :=
  match ev with
  | Ev c a =>
      match c in Call T return T → option gojenkins.CredentialResponse with
      | GetCredentialInFolder _ _ _ => fst
      | _ => λ _, None
      end a
  end.

(** Every event that satisfies [Q] comes after one that satisfies [P]. *)
Fixpoint only_after (P Q : Event → bool) (tr : list Event) : bool :=
  match tr with
  | [] => true
  | ev :: tr => P ev || (negb (Q ev) && only_after P Q tr)
  end.

(** The row of an [InsertInto] call. *)
Definition inserted (ev : Event) : option models.ProjectCredential :=
  match ev with
  | Ev (InsertInto _ record) _ => Some record
  | _ => None
  end.


(** (domain, id, folder) of a remote creation that returned no error. *)
Definition created (ev : Event) : option (string * string * string) :=
  match ev with
  | Ev c a =>
      match c in Call T return T → option (string * string * string) with
      | CreateUsernamePasswordCredentialInFolder domain id _ _ _ folder
      | CreateSshCredentialInFolder domain id _ _ _ _ folder
      | CreateSecretTextCredentialInFolder domain id _ _ folder
      | CreateKubeconfigCredentialInFolder domain id _ _ folder =>
          λ a, match a.2 with None => Some (domain, id, folder) | Some _ => None end
      | _ => λ _, None
      end a
  end.

(** The id pointer a remote creation, update or deletion returned. *)
Definition returned_id (ev : Event) : option (option string) :=
  match ev with
  | Ev c a =>
      match c in Call T return T → option (option string) with
      | CreateUsernamePasswordCredentialInFolder _ _ _ _ _ _
      | CreateSshCredentialInFolder _ _ _ _ _ _ _
      | CreateSecretTextCredentialInFolder _ _ _ _ _
      | CreateKubeconfigCredentialInFolder _ _ _ _ _
      | UpdateUsernamePasswordCredentialInFolder _ _ _ _ _ _
      | UpdateSshCredentialInFolder _ _ _ _ _ _ _
      | UpdateSecretTextCredentialInFolder _ _ _ _ _
      | UpdateKubeconfigCredentialInFolder _ _ _ _ _
      | DeleteCredentialInFolder _ _ _ => λ a, Some a.1
      | _ => λ _, None
      end a
  end.


(** The body of a delete request as [DecodeJsonPayload] left it. *)
Definition decoded_delete (ev : Event) : option DeleteCredentialRequest.t :=
  match ev with
  | Ev c a =>
      match c in Call T return T → option DeleteCredentialRequest.t with
      | DecodeJsonPayload_DeleteCredentialRequest _ => λ a, Some a.1
      | _ => λ _, None
      end a
  end.

(** The document [NewDocumentFromReader] returned. *)
Definition parsed_document (ev : Event) : option Document :=
  match ev with
  | Ev c a =>
      match c in Call T return T → option Document with
      | NewDocumentFromReader _ => λ a, Some a.1
      | _ => λ _, None
      end a
  end.

(** A local-store call that answered [db.ErrNotFound]. *)
Definition db_not_found (ev : Event) : bool :=
  on_call (@local_call) ev && bool_decide (event_error ev = Some (ErrDb db.ErrNotFound)).

(** A call of the given kind that answered with an error. *)
Definition failed (kind : ∀ T, Call T → bool) (ev : Event) : bool :=
  on_call kind ev && negb (succeeded ev).

(** The errors of the failed calls of a kind, in trace order. *)
Definition failures (kind : ∀ T, Call T → bool) (tr : list Event) : list error :=
  omap (λ ev, if on_call kind ev then event_error ev else None) tr.

Definition update_ssh_call {T : Type} (c : Call T) : bool :=
  match c with UpdateSshCredentialInFolder _ _ _ _ _ _ _ => true | _ => false end.

Definition existence_check {T : Type} (c : Call T) : bool :=
  match c with GetCredentialInFolder _ _ _ => true | _ => false end.

Definition body_decode {T : Type} (c : Call T) : bool :=
  match c with
  | DecodeJsonPayload_CredentialRequest _
  | DecodeJsonPayload_DeleteCredentialRequest _ => true
  | _ => false
  end.

Definition insert_call {T : Type} (c : Call T) : bool :=
  match c with InsertInto _ _ => true | _ => false end.



(** The five credential handlers. *)
Definition handlers `{Package} : list (Request → Prog Response) :=
  [CreateCredentialHandler; DeleteCredentialHandler; UpdateCredentialHandler;
   GetCredentialHandler; GetCredentialsHandler].

(** The number of events of a trace that satisfy [f]. *)
Definition count (f : Event → bool) (tr : list Event) : nat :=
  length (List.filter f tr).

(** The handlers that read a request body, and the two that read none. *)
Definition body_handlers `{Package} : list (Request → Prog Response) :=
  [CreateCredentialHandler; DeleteCredentialHandler; UpdateCredentialHandler].

Definition get_handlers `{Package} : list (Request → Prog Response) :=
  [GetCredentialHandler; GetCredentialsHandler].


(** The four supported credential types. *)
Definition supported_types : list string :=
  [CredentialTypeUsernamePassword; CredentialTypeSsh;
   CredentialTypeSecretText; CredentialTypeKubeConfig].

(** What [LoadOne] wrote into its destination: [Some None] when the call
    left the destination as it was. *)
Definition loaded (ev : Event) : option (option models.ProjectCredential) :=
  match ev with
  | Ev c a =>
      match c in Call T return T → option (option models.ProjectCredential) with
      | Select_LoadOne _ _ => λ a, Some a.1
      | _ => λ _, None
      end a
  end.


(** The name of the method or function that is called. *)
Definition method {T : Type} (c : Call T) : string :=
  match c with
  | DecodeJsonPayload_CredentialRequest _ => "DecodeJsonPayload"
  | DecodeJsonPayload_DeleteCredentialRequest _ => "DecodeJsonPayload"
  | checkProjectUserInRole _ _ _ => "checkProjectUserInRole"
  | Decode_UsernamePassword _ _ => "mapstructure.Decode"
  | Decode_Ssh _ _ => "mapstructure.Decode"
  | Decode_SecretText _ _ => "mapstructure.Decode"
  | Decode_Kubeconfig _ _ => "mapstructure.Decode"
  | GetCredentialInFolder _ _ _ => "GetCredentialInFolder"
  | GetCredentialsInFolder _ _ => "GetCredentialsInFolder"
  | GetCredentialContentInFolder _ _ _ => "GetCredentialContentInFolder"
  | CreateUsernamePasswordCredentialInFolder _ _ _ _ _ _ =>
      "CreateUsernamePasswordCredentialInFolder"
  | CreateSshCredentialInFolder _ _ _ _ _ _ _ => "CreateSshCredentialInFolder"
  | CreateSecretTextCredentialInFolder _ _ _ _ _ => "CreateSecretTextCredentialInFolder"
  | CreateKubeconfigCredentialInFolder _ _ _ _ _ => "CreateKubeconfigCredentialInFolder"
  | UpdateUsernamePasswordCredentialInFolder _ _ _ _ _ _ =>
      "UpdateUsernamePasswordCredentialInFolder"
  | UpdateSshCredentialInFolder _ _ _ _ _ _ _ => "UpdateSshCredentialInFolder"
  | UpdateSecretTextCredentialInFolder _ _ _ _ _ => "UpdateSecretTextCredentialInFolder"
  | UpdateKubeconfigCredentialInFolder _ _ _ _ _ => "UpdateKubeconfigCredentialInFolder"
  | DeleteCredentialInFolder _ _ _ => "DeleteCredentialInFolder"
  | InsertInto _ _ => "InsertInto"
  | DeleteFrom _ _ => "DeleteFrom"
  | Select_LoadOne _ _ => "LoadOne"
  | Select_Load _ _ => "Load"
  | NewDocumentFromReader _ => "NewDocumentFromReader"
  | logger_Error _ => "logger.Error"
  | logger_Warn _ => "logger.Warn"
  end.

(** The methods called in a trace, in order, each with the error it
    answered. *)
Definition calls (tr : list Event) : list (string * option error) :=
  (λ ev, (match ev with Ev c _ => method c end, event_error ev)) <$> tr.

(** The events that come after the first one that satisfies [P]. *)
Fixpoint after (P : Event → bool) (tr : list Event) : list Event :=
  match tr with
  | [] => []
  | ev :: tr => if P ev then tr else after P tr
  end.

(** ** A model of the environment

    The remote credential API, the relational store and the libraries
    that decode requests are outside the handlers.  The statements about
    traces above hold for any environment; the statements about the state
    of the two stores need a model of what the stores do with a call. *)

(** Library functions whose code is not part of the repository, and two
    facts about the remote side that the sources at hand do not give: the
    type name the remote reports for a credential type, and the
    configuration page it serves for a credential. *)
Class Libraries : Type := {
  json_CredentialRequest : Request → CredentialRequest.t * option error;
  json_DeleteCredentialRequest : Request → DeleteCredentialRequest.t * option error;
  mapstructure_UsernamePassword :
    gmap string JSON → UsernamePasswordCredentialRequest.t →
    UsernamePasswordCredentialRequest.t * option error;
  mapstructure_Ssh :
    gmap string JSON → SshCredentialRequest.t → SshCredentialRequest.t * option error;
  mapstructure_SecretText :
    gmap string JSON → SecretTextCredentialRequest.t →
    SecretTextCredentialRequest.t * option error;
  mapstructure_Kubeconfig :
    gmap string JSON → KubeconfigCredentialRequest.t →
    KubeconfigCredentialRequest.t * option error;
  goquery_parse : string → Document * option error;
  remote_type_name : string → string;
  remote_config_page : gojenkins.CredentialResponse → string
}.

(** Modelled from the spec: the remote credential store and the table of
    ownership rows are not code of the handlers.  The spec has a remote
    Credential identified by (domain, id) within a project-scoped folder,
    and an ownership row keyed by (project id, credential id, domain);
    [faults] scripts which of the coming store calls fail, and with what
    error, whatever the state. *)
Record World : Type := {
  jenkins : gmap (string * string * string) gojenkins.CredentialResponse;
  project_credential : list models.ProjectCredential;
  members : list (string * string * string);
  faults : list (option error)
}.

(** Modelled from the spec: an empty domain names the global domain "_"
    (glossary), the reading the delete handler itself applies to the
    local row. *)
Definition remote_domain (domain : string) : string :=
  if IsNull domain then "_" else domain.

(** The key of a remote credential: (folder, domain, id). *)
Definition remote_key (domain id folder : string) : string * string * string :=
  (folder, remote_domain domain, id).

(** The remote credential that owns a row. *)
Definition row_key (row : models.ProjectCredential) : string * string * string :=
  (models.ProjectId row, models.Domain row, models.CredentialId row).

Definition column_value (column : models.Column) (row : models.ProjectCredential) : string :=
  match column with
  | models.ProjectIdColumn => models.ProjectId row
  | models.ProjectCredentialIdColumn => models.CredentialId row
  | models.ProjectCredentialDomainColumn => models.Domain row
  end.

(** Whether a row satisfies a condition. *)
Fixpoint matches (cond : dbr.Builder) (row : models.ProjectCredential) : bool :=
  match cond with
  | dbr.Eq column value => bool_decide (column_value column row = value)
  | dbr.And conds => forallb (λ cond, matches cond row) conds
  end.

(** The fault scripted for the coming store call. *)
Definition fault (w : World) : option error :=
  match faults w with
  | Some e :: _ => Some e
  | _ => None
  end.

Definition not_found : error := ErrRemote http.StatusNotFound "Not Found".

Section Model.
Context `{Libraries}.

(** The credential the remote keeps after a creation or an update. *)
Definition stored (credentialType domain id description : string)
    : gojenkins.CredentialResponse :=
  {| gojenkins.Id := id;
     gojenkins.TypeName := remote_type_name credentialType;
     gojenkins.Fingerprint := "";
     gojenkins.Description := description;
     gojenkins.Domain := remote_domain domain |}.

(** A mutation of an existing credential answers its id. *)
Definition on_existing (w : World) (domain id folder : string)
    : option string * option error :=
  match fault w with
  | Some e => (None, Some e)
  | None =>
      match jenkins w !! remote_key domain id folder with
      | Some _ => (Some id, None)
      | None => (None, Some not_found)
      end
  end.

Definition on_create (w : World) (id : string) : option string * option error :=
  match fault w with
  | Some e => (None, Some e)
  | None => (Some id, None)
  end.

(** What a call answers in state [w]. *)
Definition answer {T : Type} (c : Call T) (w : World) : T :=
  match c in Call T return T with
  | DecodeJsonPayload_CredentialRequest r => json_CredentialRequest r
  | DecodeJsonPayload_DeleteCredentialRequest r => json_DeleteCredentialRequest r
  | checkProjectUserInRole operator projectId roles =>
      if existsb (λ role, bool_decide ((operator, projectId, role) ∈ members w)) roles
      then None
      else Some (ErrOther "the user has no such role in the project")
  | Decode_UsernamePassword input output => mapstructure_UsernamePassword input output
  | Decode_Ssh input output => mapstructure_Ssh input output
  | Decode_SecretText input output => mapstructure_SecretText input output
  | Decode_Kubeconfig input output => mapstructure_Kubeconfig input output
  | GetCredentialInFolder domain id folder =>
      match fault w with
      | Some e => (None, Some e)
      | None =>
          match jenkins w !! remote_key domain id folder with
          | Some credential => (Some credential, None)
          | None => (None, Some not_found)
          end
      end
  | GetCredentialsInFolder domain folder =>
      match fault w with
      | Some e => ([], Some e)
      | None =>
          ((map_to_list
              (filter (λ kv, kv.1.1.1 = folder ∧ kv.1.1.2 = remote_domain domain)
                      (jenkins w))).*2, None)
      end
  | GetCredentialContentInFolder domain id folder =>
      match fault w with
      | Some e => ("", Some e)
      | None =>
          match jenkins w !! remote_key domain id folder with
          | Some credential => (remote_config_page credential, None)
          | None => ("", Some not_found)
          end
      end
  | CreateUsernamePasswordCredentialInFolder _ id _ _ _ _
  | CreateSshCredentialInFolder _ id _ _ _ _ _
  | CreateSecretTextCredentialInFolder _ id _ _ _
  | CreateKubeconfigCredentialInFolder _ id _ _ _ => on_create w id
  | UpdateUsernamePasswordCredentialInFolder domain id _ _ _ folder
  | UpdateSshCredentialInFolder domain id _ _ _ _ folder
  | UpdateSecretTextCredentialInFolder domain id _ _ folder
  | UpdateKubeconfigCredentialInFolder domain id _ _ folder
  | DeleteCredentialInFolder domain id folder => on_existing w domain id folder
  | InsertInto _ _ => fault w
  | DeleteFrom _ _ => fault w
  | Select_LoadOne _ cond =>
      match fault w with
      | Some e => (None, Some e)
      | None =>
          match List.filter (matches cond) (project_credential w) with
          | row :: _ => (Some row, None)
          | [] => (None, Some (ErrDb db.ErrNotFound))
          end
      end
  | Select_Load _ cond =>
      match fault w with
      | Some e => ([], Some e)
      | None => (List.filter (matches cond) (project_credential w), None)
      end
  | NewDocumentFromReader body => goquery_parse body
  | logger_Error _ => ()
  | logger_Warn _ => ()
  end.

(** What a call that answered without error does to the two stores. *)
Definition store_effect {T : Type} (c : Call T)
    (j : gmap (string * string * string) gojenkins.CredentialResponse)
    (rows : list models.ProjectCredential)
    : gmap (string * string * string) gojenkins.CredentialResponse *
      list models.ProjectCredential :=
  match c with
  | CreateUsernamePasswordCredentialInFolder domain id _ _ description folder
  | UpdateUsernamePasswordCredentialInFolder domain id _ _ description folder =>
      (<[remote_key domain id folder :=
           stored CredentialTypeUsernamePassword domain id description]> j, rows)
  | CreateSshCredentialInFolder domain id _ _ _ description folder
  | UpdateSshCredentialInFolder domain id _ _ _ description folder =>
      (<[remote_key domain id folder :=
           stored CredentialTypeSsh domain id description]> j, rows)
  | CreateSecretTextCredentialInFolder domain id _ description folder
  | UpdateSecretTextCredentialInFolder domain id _ description folder =>
      (<[remote_key domain id folder :=
           stored CredentialTypeSecretText domain id description]> j, rows)
  | CreateKubeconfigCredentialInFolder domain id _ description folder
  | UpdateKubeconfigCredentialInFolder domain id _ description folder =>
      (<[remote_key domain id folder :=
           stored CredentialTypeKubeConfig domain id description]> j, rows)
  | DeleteCredentialInFolder domain id folder =>
      (delete (remote_key domain id folder) j, rows)
  | InsertInto _ record => (j, rows ++ [record])
  | DeleteFrom _ cond => (j, List.filter (λ row, negb (matches cond row)) rows)
  | _ => (j, rows)
  end.

(** The stores after an event: a call that answered with an error leaves
    them as they were. *)
Definition apply_event (ev : Event)
    (s : gmap (string * string * string) gojenkins.CredentialResponse *
         list models.ProjectCredential)
    : gmap (string * string * string) gojenkins.CredentialResponse *
      list models.ProjectCredential :=
  match ev with
  | Ev c _ => if succeeded ev then store_effect c s.1 s.2 else s
  end.

Definition stores (w : World)
    : gmap (string * string * string) gojenkins.CredentialResponse *
      list models.ProjectCredential :=
  (jenkins w, project_credential w).

(** A store call uses up one entry of the fault script. *)
Definition tick {T : Type} (c : Call T) (w : World) : list (option error) :=
  if remote_call c || local_call c then tail (faults w) else faults w.

Definition world_exec (T : Type) (c : Call T) (w : World) : T * World :=
  let a := answer c w in
  let s := apply_event (Ev c a) (stores w) in
  (a, {| jenkins := s.1; project_credential := s.2;
         members := members w; faults := tick c w |}).
End Model.






(** ** A concrete environment

    An instance of the symbols that are not among the sources, a small
    decoder for request bodies and two worlds, to run the handlers on
    concrete requests. *)
Module sample.
Definition package : Package := {|
ProjectOwner := "owner";
ProjectMaintainer := "maintainer";
GetUserNameFromRequest r := default "" (Header r !! "X-Token-Username");
GetJenkinsStatusCode e :=
  match e with
  | ErrRemote status _ => status
  | _ => http.StatusInternalServerError
  end;
CredentialTypeMap :=
  {[ "Username with password" := CredentialTypeUsernamePassword;
     "SSH Username with private key" := CredentialTypeSsh;
     "Secret text" := CredentialTypeSecretText;
     "Kubeconfig" := CredentialTypeKubeConfig ]};
NewProjectCredential projectId credentialId domain creator :=
  {| models.ProjectId := projectId;
     models.CredentialId := credentialId;
     models.Domain := remote_domain domain;
     models.Creator := creator;
     models.CreateTime := 1 |};
formatCredentialResponse c row :=
  {| CredentialResponse.Id := gojenkins.Id c;
     CredentialResponse.Type_ := gojenkins.TypeName c;
     CredentialResponse.DisplayName := "";
     CredentialResponse.Fingerprint := None;
     CredentialResponse.Description := gojenkins.Description c;
     CredentialResponse.Domain := gojenkins.Domain c;
     CredentialResponse.CreateTime :=
       if decide (models.CreateTime row = 0%Z) then None
       else Some (models.CreateTime row);
     CredentialResponse.Creator := models.Creator row;
     CredentialResponse.Content := ∅ |};
formatCredentialsResponse cs rows := []
|}.

(** A string field of a content map: absent keeps the old value, a
  value that is not a string is an error. *)
Definition field (m : gmap string JSON) (key old : string) : string * option error :=
match m !! key with
| None => (old, None)
| Some (JString s) => (s, None)
| Some _ => (old, Some (ErrOther ("'" +:+ key +:+ "' expected type 'string'")))
end.

Definition first_error (errs : list (option error)) : option error :=
head (omap id errs).

(** The sample decoder does not read JSON text: it knows the bodies
  listed here by name, and takes any other body as malformed. *)
Definition credential_bodies : list (string * CredentialRequest.t) :=
[("username_password c1",
  CredentialRequest.mk CredentialTypeUsernamePassword ""
    {[ "id" := JString "c1"; "username" := JString "u";
       "password" := JString "pw"; "description" := JString "d" ]});
 ("ssh c2 with type username_password",
  CredentialRequest.mk CredentialTypeUsernamePassword ""
    {[ "username" := JString "u"; "private_key" := JString "k" ]});
 ("secret_text with a number for the id",
  CredentialRequest.mk CredentialTypeSecretText "" {[ "id" := JNumber "7" ]})].

Definition delete_bodies : list (string * DeleteCredentialRequest.t) :=
[("global domain", DeleteCredentialRequest.mk "");
 ("domain d1", DeleteCredentialRequest.mk "d1")].

Definition lookup_body {A : Type} (bodies : list (string * A)) (zero : A) (r : Request)
  : A * option error :=
match head (filter (λ kv, kv.1 = Body r) bodies) with
| Some kv => (kv.2, None)
| None => (zero, Some (ErrOther "invalid character in the JSON payload"))
end.

Definition libraries : Libraries := {|
json_CredentialRequest := lookup_body credential_bodies CredentialRequest.zero;
json_DeleteCredentialRequest := lookup_body delete_bodies DeleteCredentialRequest.zero;
mapstructure_UsernamePassword m out :=
  let id := field m "id" (UsernamePasswordCredentialRequest.Id out) in
  let username := field m "username" (UsernamePasswordCredentialRequest.Username out) in
  let password := field m "password" (UsernamePasswordCredentialRequest.Password out) in
  let description :=
    field m "description" (UsernamePasswordCredentialRequest.Description out) in
  (UsernamePasswordCredentialRequest.mk id.1 username.1 password.1 description.1,
   first_error [id.2; username.2; password.2; description.2]);
mapstructure_Ssh m out :=
  let id := field m "id" (SshCredentialRequest.Id out) in
  let username := field m "username" (SshCredentialRequest.Username out) in
  let passphrase := field m "passphrase" (SshCredentialRequest.Passphrase out) in
  let private_key := field m "private_key" (SshCredentialRequest.PrivateKey out) in
  let description := field m "description" (SshCredentialRequest.Description out) in
  (SshCredentialRequest.mk id.1 username.1 passphrase.1 private_key.1 description.1,
   first_error [id.2; username.2; passphrase.2; private_key.2; description.2]);
mapstructure_SecretText m out :=
  let id := field m "id" (SecretTextCredentialRequest.Id out) in
  let secret := field m "secret" (SecretTextCredentialRequest.Secret out) in
  let description := field m "description" (SecretTextCredentialRequest.Description out) in
  (SecretTextCredentialRequest.mk id.1 secret.1 description.1,
   first_error [id.2; secret.2; description.2]);
mapstructure_Kubeconfig m out :=
  let id := field m "id" (KubeconfigCredentialRequest.Id out) in
  let content := field m "content" (KubeconfigCredentialRequest.Content out) in
  let description := field m "description" (KubeconfigCredentialRequest.Description out) in
  (KubeconfigCredentialRequest.mk id.1 content.1 description.1,
   first_error [id.2; content.2; description.2]);
goquery_parse body := ({| Find := λ _, [] |}, None);
remote_type_name ty :=
  if decide (ty = CredentialTypeUsernamePassword) then "Username with password"
  else if decide (ty = CredentialTypeSsh) then "SSH Username with private key"
  else if decide (ty = CredentialTypeSecretText) then "Secret text"
  else "Kubeconfig";
remote_config_page c := ""
|}.

Definition request (params : list (string * string)) (query : list (string * list string))
  (user body : string) : Request :=
{| PathParams := list_to_map params;
   Query := list_to_map query;
   Header := {[ "X-Token-Username" := user ]};
   Body := body |}.

(** Project p1, one member: alice, its owner. *)
Definition world (remote : list (string * string * string * gojenkins.CredentialResponse))
  (rows : list models.ProjectCredential) (script : list (option error)) : World :=
{| jenkins := list_to_map remote;
   project_credential := rows;
   members := [("alice", "p1", "owner")];
   faults := script |}.

Definition c1 : gojenkins.CredentialResponse :=
@stored libraries CredentialTypeUsernamePassword "" "c1" "d".

Definition c2 : gojenkins.CredentialResponse :=
@stored libraries CredentialTypeSsh "" "c2" "".

Definition row_c1 : models.ProjectCredential :=
@NewProjectCredential package "p1" "c1" "" "alice".

Definition exec := @world_exec libraries.

Definition Create := @CreateCredentialHandler package.
Definition Delete := @DeleteCredentialHandler package.
Definition Update := @UpdateCredentialHandler package.

(** A remote credential of a type the type map does not know. *)
Definition c3 : gojenkins.CredentialResponse :=
{| gojenkins.Id := "c3"; gojenkins.TypeName := "Certificate";
   gojenkins.Fingerprint := ""; gojenkins.Description := "";
   gojenkins.Domain := "_" |}.

(** Requests of alice, owner of p1, and one of mallory, who has no role. *)
Definition create_c1 : Request := request [("id", "p1")] [] "alice" "username_password c1".
Definition delete_c1 : Request :=
request [("id", "p1"); ("cid", "c1")] [] "alice" "global domain".
Definition update_c2 : Request :=
request [("id", "p1"); ("cid", "c2")] [] "alice" "ssh c2 with type username_password".
Definition get_c1 : Request := request [("id", "p1"); ("cid", "c1")] [] "alice" "".

(** Worlds: nothing stored; c1 stored and owned; c1 stored without a row;
  c2 and c3 stored. *)
Definition nothing (script : list (option error)) : World := world [] [] script.
Definition owned (script : list (option error)) : World :=
world [("p1", "_", "c1", c1)] [row_c1] script.
Definition others (script : list (option error)) : World :=
world [("p1", "_", "c2", c2); ("p1", "_", "c3", c3)] [] script.

(** Runs. *)
Definition create_ok := run exec (Create create_c1) (nothing []).
Definition create_duplicate := run exec (Create create_c1) (owned []).
Definition create_check_fails :=
run exec (Create create_c1) (nothing [Some (ErrRemote 500 "Server Error")]).
Definition create_insert_fails :=
run exec (Create create_c1) (nothing [None; None; Some (ErrDb db.ErrInvalidPointer)]).
Definition delete_ok := run exec (Delete delete_c1) (owned []).
Definition delete_local_fails :=
run exec (Delete delete_c1) (owned [None; Some (ErrOther "connection refused")]).
Definition update_ssh := run exec (Update update_c2) (others []).
Definition update_ssh_fails :=
run exec (Update update_c2) (others [None; Some (ErrRemote 404 "Not Found")]).
End sample.

(** ** More ways to read a trace *)

(** The request body as [DecodeJsonPayload] left it. *)
Definition decoded_credential (ev : Event) : option CredentialRequest.t :=
  match ev with
  | Ev c a =>
      match c in Call T return T → option CredentialRequest.t with
      | DecodeJsonPayload_CredentialRequest _ => λ a, Some a.1
      | _ => λ _, None
      end a
  end.

(** (domain, id, folder) of a call to [GetCredentialInFolder]. *)
Definition checked (ev : Event) : option (string * string * string) :=
  match ev with
  | Ev (GetCredentialInFolder domain id folder) _ => Some (domain, id, folder)
  | _ => None
  end.

(** (domain, id, folder) of a remote creation call, whatever it answered. *)
Definition create_args (ev : Event) : option (string * string * string) :=
  match ev with
  | Ev (CreateUsernamePasswordCredentialInFolder domain id _ _ _ folder) _
  | Ev (CreateSshCredentialInFolder domain id _ _ _ _ folder) _
  | Ev (CreateSecretTextCredentialInFolder domain id _ _ folder) _
  | Ev (CreateKubeconfigCredentialInFolder domain id _ _ folder) _ =>
      Some (domain, id, folder)
  | _ => None
  end.

(** The credential type a remote creation call is for. *)
Definition create_type (ev : Event) : option string :=
  match ev with
  | Ev (CreateUsernamePasswordCredentialInFolder _ _ _ _ _ _) _ =>
      Some CredentialTypeUsernamePassword
  | Ev (CreateSshCredentialInFolder _ _ _ _ _ _ _) _ => Some CredentialTypeSsh
  | Ev (CreateSecretTextCredentialInFolder _ _ _ _ _) _ => Some CredentialTypeSecretText
  | Ev (CreateKubeconfigCredentialInFolder _ _ _ _ _) _ => Some CredentialTypeKubeConfig
  | _ => None
  end.

(** (domain, id, folder) of a remote update call. *)
Definition update_args (ev : Event) : option (string * string * string) :=
  match ev with
  | Ev (UpdateUsernamePasswordCredentialInFolder domain id _ _ _ folder) _
  | Ev (UpdateSshCredentialInFolder domain id _ _ _ _ folder) _
  | Ev (UpdateSecretTextCredentialInFolder domain id _ _ folder) _
  | Ev (UpdateKubeconfigCredentialInFolder domain id _ _ folder) _ =>
      Some (domain, id, folder)
  | _ => None
  end.

(** (domain, id, folder) of a remote deletion call, and of one that
    returned no error. *)
Definition delete_args (ev : Event) : option (string * string * string) :=
  match ev with
  | Ev (DeleteCredentialInFolder domain id folder) _ => Some (domain, id, folder)
  | _ => None
  end.


(** The struct handed to [mapstructure.Decode] as its output: its id, and
    whether every other field is empty. *)
Definition payload_prefill (ev : Event) : option (string * bool) :=
  match ev with
  | Ev (Decode_UsernamePassword _ out) _ =>
      Some (UsernamePasswordCredentialRequest.Id out,
            bool_decide (UsernamePasswordCredentialRequest.Username out = "")
            && bool_decide (UsernamePasswordCredentialRequest.Password out = "")
            && bool_decide (UsernamePasswordCredentialRequest.Description out = ""))
  | Ev (Decode_Ssh _ out) _ =>
      Some (SshCredentialRequest.Id out,
            bool_decide (SshCredentialRequest.Username out = "")
            && bool_decide (SshCredentialRequest.Passphrase out = "")
            && bool_decide (SshCredentialRequest.PrivateKey out = "")
            && bool_decide (SshCredentialRequest.Description out = ""))
  | Ev (Decode_SecretText _ out) _ =>
      Some (SecretTextCredentialRequest.Id out,
            bool_decide (SecretTextCredentialRequest.Secret out = "")
            && bool_decide (SecretTextCredentialRequest.Description out = ""))
  | Ev (Decode_Kubeconfig _ out) _ =>
      Some (KubeconfigCredentialRequest.Id out,
            bool_decide (KubeconfigCredentialRequest.Content out = "")
            && bool_decide (KubeconfigCredentialRequest.Description out = ""))
  | _ => None
  end.

(** The id of the struct as [mapstructure.Decode] left it. *)
Definition payload_id (ev : Event) : option string :=
  match ev with
  | Ev c a =>
      match c in Call T return T → option string with
      | Decode_UsernamePassword _ _ => λ a, Some (UsernamePasswordCredentialRequest.Id a.1)
      | Decode_Ssh _ _ => λ a, Some (SshCredentialRequest.Id a.1)
      | Decode_SecretText _ _ => λ a, Some (SecretTextCredentialRequest.Id a.1)
      | Decode_Kubeconfig _ _ => λ a, Some (KubeconfigCredentialRequest.Id a.1)
      | _ => λ _, None
      end a
  end.

(** The condition of a select. *)
Definition select_condition (ev : Event) : option dbr.Builder :=
  match ev with
  | Ev (Select_LoadOne _ cond) _ | Ev (Select_Load _ cond) _ => Some cond
  | _ => None
  end.

(** The rows and the remote credentials the list handler was given. *)
Definition loaded_rows (ev : Event) : option (list models.ProjectCredential) :=
  match ev with
  | Ev c a =>
      match c in Call T return T → option (list models.ProjectCredential) with
      | Select_Load _ _ => λ a, Some a.1
      | _ => λ _, None
      end a
  end.

Definition listed (ev : Event) : option (list gojenkins.CredentialResponse) :=
  match ev with
  | Ev c a =>
      match c in Call T return T → option (list gojenkins.CredentialResponse) with
      | GetCredentialsInFolder _ _ => λ a, Some a.1
      | _ => λ _, None
      end a
  end.

(** What a logger call writes. *)
Definition logged (ev : Event) : option string :=
  match ev with
  | Ev (logger_Error err) _ => Some (Error err)
  | Ev (logger_Warn msg) _ => Some msg
  | _ => None
  end.

Definition logger_call {T : Type} (c : Call T) : bool :=
  match c with logger_Error _ | logger_Warn _ => true | _ => false end.

(** A failure the handlers go on after: the existence check of the
    create handler, and a local-store call that answered
    [db.ErrNotFound]. *)
Definition tolerated (ev : Event) : bool :=
  on_call (@existence_check) ev || db_not_found ev.

(** A call that answered with an error and is not tolerated. *)
Definition hard_failure (ev : Event) : bool :=
  negb (succeeded ev) && negb (tolerated ev).

(** The message and the code of an error response. *)
Definition error_message (resp : Response) : option string :=
  match resp with rest_Error msg _ => Some msg | _ => None end.

(** The keys of the content a get request can return for a credential. *)
Definition content_keys : list string :=
  ["id"; "username"; "password"; "passphrase"; "private_key"; "content"; "description"].

(** (domain, id, folder) of a call to [GetCredentialContentInFolder], and
    (domain, folder) of a call to [GetCredentialsInFolder]. *)
Definition content_args (ev : Event) : option (string * string * string) :=
  match ev with
  | Ev (GetCredentialContentInFolder domain id folder) _ => Some (domain, id, folder)
  | _ => None
  end.

Definition list_args (ev : Event) : option (string * string) :=
  match ev with
  | Ev (GetCredentialsInFolder domain folder) _ => Some (domain, folder)
  | _ => None
  end.


(** (operator, project, roles) of a role check. *)
Definition role_check_args (ev : Event) : option (string * string * list string) :=
  match ev with
  | Ev (checkProjectUserInRole operator projectId roles) _ =>
      Some (operator, projectId, roles)
  | _ => None
  end.

(** ** More of the concrete environment

    The sample decoder with two more bodies, a page parser that finds
    the fields of a username/password credential, and more runs. *)
Module more.
Definition credential_bodies : list (string * CredentialRequest.t) :=
  sample.credential_bodies ++
  [("certificate c9", CredentialRequest.mk "certificate" "" ∅);
   ("kubeconfig k1 in d1",
    CredentialRequest.mk CredentialTypeKubeConfig "d1"
      {[ "id" := JString "k1"; "content" := JString "apiVersion: v1" ]})].

(** The configuration page of c1 as the parser shows it: one id input,
    two username inputs, no description input. *)
Definition page : Document :=
  {| Find selector :=
       if decide (selector = "input[name*=id][type=text]")
       then [{| Text := ""; Attr := [("name", "_.id"); ("value", "c1")] |}]
       else if decide (selector = "input[name*=username]")
       then [{| Text := ""; Attr := [("value", "old")] |};
             {| Text := ""; Attr := [("name", "_.username"); ("value", "u")] |}]
       else [] |}.

Definition libraries : Libraries := {|
  json_CredentialRequest := sample.lookup_body credential_bodies CredentialRequest.zero;
  json_DeleteCredentialRequest := @json_DeleteCredentialRequest sample.libraries;
  mapstructure_UsernamePassword := @mapstructure_UsernamePassword sample.libraries;
  mapstructure_Ssh := @mapstructure_Ssh sample.libraries;
  mapstructure_SecretText := @mapstructure_SecretText sample.libraries;
  mapstructure_Kubeconfig := @mapstructure_Kubeconfig sample.libraries;
  goquery_parse body := (page, None);
  remote_type_name := @remote_type_name sample.libraries;
  remote_config_page := @remote_config_page sample.libraries
|}.

Definition exec := @world_exec libraries.

(** The package with a formatter that reports the credential type. *)
Definition package : Package := {|
  ProjectOwner := @ProjectOwner sample.package;
  ProjectMaintainer := @ProjectMaintainer sample.package;
  GetUserNameFromRequest := @GetUserNameFromRequest sample.package;
  GetJenkinsStatusCode := @GetJenkinsStatusCode sample.package;
  CredentialTypeMap := @CredentialTypeMap sample.package;
  NewProjectCredential := @NewProjectCredential sample.package;
  formatCredentialResponse c row :=
    {| CredentialResponse.Id := gojenkins.Id c;
       CredentialResponse.Type_ :=
         default (gojenkins.TypeName c)
                 (@CredentialTypeMap sample.package !! gojenkins.TypeName c);
       CredentialResponse.DisplayName := "";
       CredentialResponse.Fingerprint := None;
       CredentialResponse.Description := gojenkins.Description c;
       CredentialResponse.Domain := gojenkins.Domain c;
       CredentialResponse.CreateTime := Some (models.CreateTime row);
       CredentialResponse.Creator := models.Creator row;
       CredentialResponse.Content := ∅ |};
  formatCredentialsResponse cs rows :=
    (λ c, {| CredentialResponse.Id := gojenkins.Id c;
             CredentialResponse.Type_ := gojenkins.TypeName c;
             CredentialResponse.DisplayName := "";
             CredentialResponse.Fingerprint := None;
             CredentialResponse.Description := gojenkins.Description c;
             CredentialResponse.Domain := gojenkins.Domain c;
             CredentialResponse.CreateTime := None;
             CredentialResponse.Creator := "";
             CredentialResponse.Content := ∅ |}) <$> cs
|}.

Definition create_certificate : Request :=
  sample.request [("id", "p1")] [] "alice" "certificate c9".
Definition create_k1 : Request :=
  sample.request [("id", "p1")] [] "alice" "kubeconfig k1 in d1".
Definition get_c1_content : Request :=
  sample.request [("id", "p1"); ("cid", "c1")] [("content", ["1"])] "alice" "".
Definition list_p1 : Request := sample.request [("id", "p1")] [] "alice" "".
Definition list_p1_d1 : Request :=
  sample.request [("id", "p1")] [("domain", ["d1"])] "alice" "".

(** Runs. *)
Definition unsupported :=
  run exec (@CreateCredentialHandler package create_certificate) (sample.nothing []).
Definition create_kubeconfig :=
  run exec (@CreateCredentialHandler package create_k1) (sample.nothing []).
Definition get_content :=
  run exec (@GetCredentialHandler package get_c1_content) (sample.owned []).
Definition get_plain :=
  run exec (@GetCredentialHandler package sample.get_c1) (sample.owned []).
Definition list_all :=
  run exec (@GetCredentialsHandler package list_p1) (sample.owned []).
Definition list_d1 :=
  run exec (@GetCredentialsHandler package list_p1_d1) (sample.owned []).
Definition list_not_found :=
  run exec (@GetCredentialsHandler package list_p1)
      (sample.owned [None; Some (ErrDb db.ErrNotFound)]).

(** The bodies of two sample requests as the sample decoder reads them,
    and c1 as the formatter of [package] shows it without a row. *)
Definition decoded_c1 : CredentialRequest.t :=
  (@json_CredentialRequest sample.libraries sample.create_c1).1.
Definition decoded_c2 : CredentialRequest.t :=
  (@json_CredentialRequest sample.libraries sample.update_c2).1.
Definition decoded_certificate : CredentialRequest.t :=
  (@json_CredentialRequest libraries create_certificate).1.
Definition formatted_c3 : CredentialResponse.t :=
  @formatCredentialResponse package sample.c3 models.zero.
End more.
Lemma run_always {W R : Type} (exec : ∀ T, Call T → W → T * W)
    (p : Prog R) (P : list Event → R → Prop) (w : W) :
  always p P → P (trace_of (run exec p w)) (response_of (run exec p w)).
Proof.
  revert P w. induction p as [r | T c k IH]; intros P w Hp; [exact Hp |].
  simpl in Hp. specialize (Hp (exec T c w).1).
  apply IH with (w := (exec T c w).2) in Hp. exact Hp.
Qed.

(** Walks a handler script: takes each answer as it comes and splits on
    the tests the script makes on it. *)
Ltac walk_step :=
  match goal with
  | |- ∀ _ : unit, _ => intros []
  | |- ∀ _ : _ * _, _ => intros [? ?]
  | |- ∀ _ : option _, _ => intros [?|]
  | |- always (match nonnil_and ?x _ with _ => _ end) _ =>
      first [ is_var x; destruct x | progress cbn [nonnil_and] ]
  | |- always (match (if ?b then _ else _) with _ => _ end) _ => destruct b eqn:?
  | |- always (match ?x with _ => _ end) _ => destruct x eqn:?
  | |- always (if ?x then _ else _) _ => destruct x eqn:?
  | |- always (WriteJson_Id _) _ => unfold WriteJson_Id
  | |- always (fail _ _) _ => unfold fail
  end.

Ltac walk := repeat (cbn [always]; walk_step); cbn [always].

(** Splits a hypothesis [h ∈ handlers] into the five handlers. *)
Ltac each_handler Hh :=
  unfold handlers in Hh;
  repeat (apply elem_of_cons in Hh as [-> | Hh]);
  [ unfold CreateCredentialHandler
  | unfold DeleteCredentialHandler
  | unfold UpdateCredentialHandler
  | unfold GetCredentialHandler
  | unfold GetCredentialsHandler
  | by apply elem_of_nil in Hh ].

(** Turns the boolean tests met on a path into propositions. *)
Ltac bool_hyps :=
  repeat match goal with
  | H : bool_decide _ = true |- _ => apply bool_decide_eq_true in H
  | H : bool_decide _ = false |- _ => apply bool_decide_eq_false in H
  end.

(** Closes the goal at the end of one path of a script. *)
Ltac leaf :=
  cbn; repeat split; intros; bool_hyps; simplify_eq/=;
  try done; try (repeat constructor; done); try (cbv; lia).

(** C4.  Duplicate id on create: when the existence check of a create
    request returns a credential, the handler answers 409 and issues
    neither a remote mutation (in particular no creation) nor a
    local-store write. *)
Theorem create_duplicate_id_conflict `{Package} {W : Type}
    (exec : ∀ T, Call T → W → T * W) (w : W) (r : Request) :
  let res := run exec (CreateCredentialHandler r) w in
  existsb (λ ev, bool_decide (is_Some (fetched_credential ev))) (trace_of res) = true →
  status (response_of res) = Some http.StatusConflict ∧
  forallb (λ ev, negb (on_call (@remote_mutation) ev) && negb (on_call (@local_write) ev))
          (trace_of res) = true.
Proof.
  intros res; subst res. apply run_always.
  unfold CreateCredentialHandler. walk; leaf.
Qed.


(** C3 (amended).  When a remote-API call fails, the status of the error
    response is the translation [GetJenkinsStatusCode] of the remote
    error: for the creation call of every credential type, for the remote
    deletion, for the fetch and for the username/password, secret-text and
    kubeconfig update calls of the update handler, for both fetches of the
    get handler and for the listing.  The existence check of the create
    handler is a further local override: when it returns no credential
    and an error whose translation is not 404, the status is 400. *)
Theorem remote_failure_status `{Package} {W : Type}
    (exec : ∀ T, Call T → W → T * W) (w : W) (r : Request) :
  (let res := run exec (CreateCredentialHandler r) w in
   Forall (λ e, status (response_of res) = Some (GetJenkinsStatusCode e))
          (failures (@create_call) (trace_of res)) ∧
   (∀ e, failures (@existence_check) (trace_of res) = [e] →
         omap fetched_credential (trace_of res) = [] →
         GetJenkinsStatusCode e ≠ http.StatusNotFound →
         status (response_of res) = Some http.StatusBadRequest)) ∧
  (let res := run exec (DeleteCredentialHandler r) w in
   Forall (λ e, status (response_of res) = Some (GetJenkinsStatusCode e))
          (failures (@remote_call) (trace_of res))) ∧
  (let res := run exec (UpdateCredentialHandler r) w in
   Forall (λ e, status (response_of res) = Some (GetJenkinsStatusCode e))
          (failures (λ T c, remote_call c && negb (update_ssh_call c)) (trace_of res))) ∧
  (let res := run exec (GetCredentialHandler r) w in
   Forall (λ e, status (response_of res) = Some (GetJenkinsStatusCode e))
          (failures (@remote_call) (trace_of res))) ∧
  (let res := run exec (GetCredentialsHandler r) w in
   Forall (λ e, status (response_of res) = Some (GetJenkinsStatusCode e))
          (failures (@remote_call) (trace_of res))).
Proof.
  split; [| split; [| split; [| split]]]; cbv zeta.
  - apply (run_always exec (CreateCredentialHandler r)
      (λ tr resp,
         Forall (λ e, status resp = Some (GetJenkinsStatusCode e))
                (failures (@create_call) tr) ∧
         (∀ e, failures (@existence_check) tr = [e] →
               omap fetched_credential tr = [] →
               GetJenkinsStatusCode e ≠ http.StatusNotFound →
               status resp = Some http.StatusBadRequest))).
    unfold CreateCredentialHandler; walk; leaf.
  - apply (run_always exec (DeleteCredentialHandler r)
      (λ tr resp, Forall (λ e, status resp = Some (GetJenkinsStatusCode e))
                         (failures (@remote_call) tr))).
    unfold DeleteCredentialHandler; walk; leaf.
  - apply (run_always exec (UpdateCredentialHandler r)
      (λ tr resp, Forall (λ e, status resp = Some (GetJenkinsStatusCode e))
                         (failures (λ T c, remote_call c && negb (update_ssh_call c)) tr))).
    unfold UpdateCredentialHandler; walk; leaf.
  - apply (run_always exec (GetCredentialHandler r)
      (λ tr resp, Forall (λ e, status resp = Some (GetJenkinsStatusCode e))
                         (failures (@remote_call) tr))).
    unfold GetCredentialHandler; walk; leaf.
  - apply (run_always exec (GetCredentialsHandler r)
      (λ tr resp, Forall (λ e, status resp = Some (GetJenkinsStatusCode e))
                         (failures (@remote_call) tr))).
    unfold GetCredentialsHandler; walk; leaf.
Qed.

(** C5 (amended).  In every handler no remote call, no local-store call
    and no decoding of a type-specific payload happens unless the role
    check has passed before; a local-store write happens only after a
    remote mutation that succeeded; a request makes at most two remote
    calls (create: existence check and creation; update: fetch and
    update; get: fetch and content fetch), at most one of them a mutation,
    and at most one local-store call; delete and list make at most one
    remote call.  The handlers with a body (create, update, delete)
    decode it first: their role check happens only after the body was
    decoded without error.  The two get handlers decode nothing. *)
Theorem handler_step_order `{Package} {W : Type}
    (exec : ∀ T, Call T → W → T * W) (w : W) (r : Request) :
  (∀ h, h ∈ handlers →
     let tr := trace_of (run exec (h r) w) in
     only_after authorized
       (λ ev, on_call (@remote_call) ev || on_call (@local_call) ev) tr = true ∧
     only_after authorized
       (λ ev, on_call (@decode_call) ev && negb (on_call (@body_decode) ev)) tr = true ∧
     only_after (λ ev, on_call (@remote_mutation) ev && succeeded ev)
       (on_call (@local_write)) tr = true ∧
     count (on_call (@remote_call)) tr ≤ 2 ∧
     count (on_call (@remote_mutation)) tr ≤ 1 ∧
     count (on_call (@local_call)) tr ≤ 1) ∧
  (∀ h, h ∈ body_handlers →
     let tr := trace_of (run exec (h r) w) in
     only_after (λ ev, on_call (@body_decode) ev && succeeded ev)
       (on_call (@role_check)) tr = true) ∧
  (∀ h, h ∈ get_handlers →
     let tr := trace_of (run exec (h r) w) in
     forallb (λ ev, negb (on_call (@decode_call) ev)) tr = true) ∧
  (∀ h, h ∈ [DeleteCredentialHandler; GetCredentialsHandler] →
     let tr := trace_of (run exec (h r) w) in
     count (on_call (@remote_call)) tr ≤ 1).
Proof.
  split; [| split; [| split]]; intros h Hh tr; subst tr.
  - apply (run_always exec (h r)
      (λ tr _,
         only_after authorized
           (λ ev, on_call (@remote_call) ev || on_call (@local_call) ev) tr = true ∧
         only_after authorized
           (λ ev, on_call (@decode_call) ev && negb (on_call (@body_decode) ev)) tr = true ∧
         only_after (λ ev, on_call (@remote_mutation) ev && succeeded ev)
           (on_call (@local_write)) tr = true ∧
         count (on_call (@remote_call)) tr ≤ 2 ∧
         count (on_call (@remote_mutation)) tr ≤ 1 ∧
         count (on_call (@local_call)) tr ≤ 1)).
    each_handler Hh; walk; leaf.
  - apply (run_always exec (h r)
      (λ tr _, only_after (λ ev, on_call (@body_decode) ev && succeeded ev)
                 (on_call (@role_check)) tr = true)).
    unfold body_handlers in Hh.
    repeat (apply elem_of_cons in Hh as [-> | Hh]); [| | | by apply elem_of_nil in Hh].
    + unfold CreateCredentialHandler; walk; leaf.
    + unfold DeleteCredentialHandler; walk; leaf.
    + unfold UpdateCredentialHandler; walk; leaf.
  - apply (run_always exec (h r)
      (λ tr _, forallb (λ ev, negb (on_call (@decode_call) ev)) tr = true)).
    unfold get_handlers in Hh.
    repeat (apply elem_of_cons in Hh as [-> | Hh]); [| | by apply elem_of_nil in Hh].
    + unfold GetCredentialHandler; walk; leaf.
    + unfold GetCredentialsHandler; walk; leaf.
  - apply (run_always exec (h r) (λ tr _, count (on_call (@remote_call)) tr ≤ 1)).
    repeat (apply elem_of_cons in Hh as [-> | Hh]); [| | by apply elem_of_nil in Hh].
    + unfold DeleteCredentialHandler; walk; leaf.
    + unfold GetCredentialsHandler; walk; leaf.
Qed.




(** ** The ownership invariant in the model of the two stores *)

Section Invariant.
Context `{Package} `{Libraries}.

(** The stores after a run are the stores before it, changed by the
    events of the trace in order. *)
Lemma run_world_stores {R : Type} (p : Prog R) (w : World) :
  stores (world_of (run world_exec p w))
  = foldl (λ s ev, apply_event ev s) (stores w) (trace_of (run world_exec p w)).
Proof.
  revert w. induction p as [r | T c k IH]; intros w; [done |].
  cbn -[apply_event]. unfold world_of, trace_of in IH. rewrite IH.
  f_equal. unfold stores at 1. cbn -[apply_event].
  by destruct (apply_event _ _).
Qed.







(** C6.  When a create request has its remote creation succeed and its
    local insert fail, the failure is what the handler reports (the
    error response carries the translated status of the insert error),
    no remote call follows the creation, and in the model of the two
    stores the remote store ends as it was before the request plus the
    credential just created, the ownership table as it was. *)
Theorem create_insert_failure_not_rolled_back (w : World) (r : Request) :
  let res := run world_exec (CreateCredentialHandler r) w in
  ∀ k e,
    omap created (trace_of res) = [k] →
    failures (@insert_call) (trace_of res) = [e] →
    response_of res = rest_Error (Error e) (GetJenkinsStatusCode e) ∧
    forallb (λ ev, negb (on_call (@remote_call) ev))
      (after (λ ev, bool_decide (is_Some (created ev))) (trace_of res)) = true ∧
    (∃ c, jenkins (world_of res) = <[remote_key k.1.1 k.1.2 k.2 := c]> (jenkins w)) ∧
    project_credential (world_of res) = project_credential w.
Proof.
  intros res k e Hk He.
  assert (Hs : stores (world_of res)
               = foldl (λ s ev, apply_event ev s) (stores w) (trace_of res))
    by apply run_world_stores.
  enough (response_of res = rest_Error (Error e) (GetJenkinsStatusCode e) ∧
          forallb (λ ev, negb (on_call (@remote_call) ev))
            (after (λ ev, bool_decide (is_Some (created ev))) (trace_of res)) = true ∧
          ∃ c, foldl (λ s ev, apply_event ev s) (stores w) (trace_of res)
               = (<[remote_key k.1.1 k.1.2 k.2 := c]> (jenkins w), project_credential w))
    as (Hresp & Hafter & c & Hc).
  { rewrite Hc in Hs. unfold stores in Hs. simplify_eq. eauto. }
  clear Hs. revert k e Hk He.
  assert (Hgen : ∀ k e, omap created (trace_of res) = [k] →
    failures (@insert_call) (trace_of res) = [e] →
    response_of res = rest_Error (Error e) (GetJenkinsStatusCode e) ∧
    forallb (λ ev, negb (on_call (@remote_call) ev))
      (after (λ ev, bool_decide (is_Some (created ev))) (trace_of res)) = true ∧
    ∀ s, ∃ c, foldl (λ s ev, apply_event ev s) s (trace_of res)
              = (<[remote_key k.1.1 k.1.2 k.2 := c]> s.1, s.2)).
  { subst res.
    apply (run_always world_exec (CreateCredentialHandler r)
      (λ tr resp, ∀ k e, omap created tr = [k] → failures (@insert_call) tr = [e] →
         resp = rest_Error (Error e) (GetJenkinsStatusCode e) ∧
         forallb (λ ev, negb (on_call (@remote_call) ev))
           (after (λ ev, bool_decide (is_Some (created ev))) tr) = true ∧
         ∀ s, ∃ c, foldl (λ s ev, apply_event ev s) s tr
                   = (<[remote_key k.1.1 k.1.2 k.2 := c]> s.1, s.2))).
    unfold CreateCredentialHandler; walk; cbn; intros e' Hk He; simplify_eq/=.
    all: repeat split; intros [j rows]; eexists; reflexivity. }
  intros k e Hk He. destruct (Hgen k e Hk He) as (Hresp & Hafter & Hst).
  repeat split; [done | done |]. apply (Hst (stores w)).
Qed.

End Invariant.


(** ** The theorems at concrete requests *)




Lemma remote_failure_status_witness :
  failures (@existence_check) (trace_of sample.create_check_fails)
  = [ErrRemote 500 "Server Error"] ∧
  omap fetched_credential (trace_of sample.create_check_fails) = [] ∧
  status (response_of sample.create_check_fails) = Some http.StatusBadRequest.
Proof.
  split; [vm_compute; reflexivity |]. split; [vm_compute; reflexivity |].
  apply (proj2 (proj1 (@remote_failure_status sample.package World sample.exec
                         (sample.nothing [Some (ErrRemote 500 "Server Error")])
                         sample.create_c1))
               (ErrRemote 500 "Server Error")).
  - vm_compute. reflexivity.
  - vm_compute. reflexivity.
  - vm_compute. discriminate.
Defined.

(** C3, the claim as stated fails: alice creates c1 and the existence
    check, a remote-API call, fails with a remote error of status 500.
    No credential comes back, the request was decoded and authorized, and
    yet the status written is 400, not the translation 500 of the remote
    error. *)
Lemma existence_check_failure_answers_400 :
  calls (trace_of sample.create_check_fails)
  = [("DecodeJsonPayload", None); ("checkProjectUserInRole", None);
     ("mapstructure.Decode", None);
     ("GetCredentialInFolder", Some (ErrRemote 500 "Server Error"));
     ("logger.Error", None)] ∧
  response_of sample.create_check_fails = rest_Error "Server Error" 400 ∧
  @GetJenkinsStatusCode sample.package (ErrRemote 500 "Server Error") = 500%Z ∧
  status (response_of sample.create_check_fails)
  ≠ Some (@GetJenkinsStatusCode sample.package (ErrRemote 500 "Server Error")).
Proof.
  split; [| split; [| split]]; vm_compute; try reflexivity. discriminate.
Qed.

(** The SSH branch of the update handler answers a failed remote update
    with 500 whatever the remote status was: here the remote answered
    404. *)
Example update_ssh_failure_answers_500 :
  calls (trace_of sample.update_ssh_fails)
  = [("DecodeJsonPayload", None); ("checkProjectUserInRole", None);
     ("GetCredentialInFolder", None); ("mapstructure.Decode", None);
     ("UpdateSshCredentialInFolder", Some (ErrRemote 404 "Not Found"));
     ("logger.Error", None)] ∧
  response_of sample.update_ssh_fails = rest_Error "Not Found" 500 ∧
  @GetJenkinsStatusCode sample.package (ErrRemote 404 "Not Found") = 404%Z.
Proof. repeat split; vm_compute; reflexivity. Qed.

(** A create request that succeeds inserts the row of its creator for the
    credential it created, in the global domain. *)
Example create_inserts_owner_row :
  omap created (trace_of sample.create_ok) = [("", "c1", "p1")] ∧
  omap inserted (trace_of sample.create_ok) = [sample.row_c1] ∧
  project_credential (world_of sample.create_ok) = [sample.row_c1] ∧
  jenkins (world_of sample.create_ok) !! row_key sample.row_c1 = Some sample.c1.
Proof. repeat split; vm_compute; reflexivity. Qed.

Lemma create_duplicate_id_conflict_witness :
  existsb (λ ev, bool_decide (is_Some (fetched_credential ev)))
          (trace_of sample.create_duplicate) = true ∧
  status (response_of sample.create_duplicate) = Some http.StatusConflict ∧
  forallb (λ ev, negb (on_call (@remote_mutation) ev) && negb (on_call (@local_write) ev))
          (trace_of sample.create_duplicate) = true.
Proof.
  split; [vm_compute; reflexivity |].
  apply (@create_duplicate_id_conflict sample.package World sample.exec
           (sample.owned []) sample.create_c1).
  vm_compute. reflexivity.
Defined.

Lemma handler_step_order_witness :
  sample.Create ∈ @handlers sample.package ∧
  only_after authorized
    (λ ev, on_call (@remote_call) ev || on_call (@local_call) ev)
    (trace_of sample.create_ok) = true ∧
  count (on_call (@remote_call)) (trace_of sample.create_ok) ≤ 2.
Proof.
  assert (Hh : sample.Create ∈ @handlers sample.package) by repeat constructor.
  split; [exact Hh |].
  destruct (proj1 (@handler_step_order sample.package World sample.exec
                     (sample.nothing []) sample.create_c1) sample.Create Hh)
    as (Hauth & _ & _ & Hcount & _).
  split; [exact Hauth | exact Hcount].
Defined.

(** C5, the claim as stated fails: a create request that succeeds invokes
    two remote-API methods, the existence check and the creation. *)
Lemma create_makes_two_remote_calls :
  calls (List.filter (on_call (@remote_call)) (trace_of sample.create_ok))
  = [("GetCredentialInFolder", Some (ErrRemote 404 "Not Found"));
     ("CreateUsernamePasswordCredentialInFolder", None)] ∧
  response_of sample.create_ok = WriteJson (IdBody "c1") ∧
  count (on_call (@remote_call)) (trace_of sample.create_ok) ≠ 1.
Proof.
  split; [| split]; vm_compute; try reflexivity. discriminate.
Qed.

Lemma create_insert_failure_not_rolled_back_witness :
  omap created (trace_of sample.create_insert_fails) = [("", "c1", "p1")] ∧
  failures (@insert_call) (trace_of sample.create_insert_fails)
  = [ErrDb db.ErrInvalidPointer] ∧
  response_of sample.create_insert_fails
  = rest_Error "dbr: attempt to load into an invalid pointer" 500 ∧
  jenkins (world_of sample.create_insert_fails) !! ("p1", "_", "c1") = Some sample.c1 ∧
  project_credential (world_of sample.create_insert_fails) = [].
Proof.
  assert (Hk : omap created (trace_of sample.create_insert_fails) = [("", "c1", "p1")])
    by (vm_compute; reflexivity).
  assert (He : failures (@insert_call) (trace_of sample.create_insert_fails)
               = [ErrDb db.ErrInvalidPointer]) by (vm_compute; reflexivity).
  destruct (@create_insert_failure_not_rolled_back sample.package sample.libraries
              (sample.nothing [None; None; Some (ErrDb db.ErrInvalidPointer)])
              sample.create_c1 _ _ Hk He) as (Hresp & _ & _ & Hrows).
  split; [exact Hk |]. split; [exact He |]. split; [exact Hresp |].
  split; [vm_compute; reflexivity | exact Hrows].
Defined.





(** ** Further properties of the handlers *)

(** Membership in a list that is written out. *)
Ltac in_list := repeat first [apply list_elem_of_here | apply list_elem_of_further].

(** Closes a path of the create handler that the type of the request
    rules out. *)
Ltac wrong_type Hty :=
  exfalso; apply Hty; unfold supported_types;
  match goal with Heq : CredentialRequest.Type_ _ = _ |- _ => rewrite Heq end;
  in_list.

(** X1.  A create request whose type is none of the four supported ones, once
    decoded and authorized, is answered with the error "error unsupport
    credential type" under the status the translator gives that error,
    and makes no remote call, no local-store call and no payload
    decoding. *)
Theorem create_unsupported_type `{Package} {W : Type}
    (exec : ∀ T, Call T → W → T * W) (w : W) (r : Request) :
  let res := run exec (CreateCredentialHandler r) w in
  ∀ request, omap decoded_credential (trace_of res) = [request] →
    existsb authorized (trace_of res) = true →
    CredentialRequest.Type_ request ∉ supported_types →
    response_of res
    = rest_Error "error unsupport  credential type"
        (GetJenkinsStatusCode (Errorf "error unsupport  credential type")) ∧
    forallb (λ ev, negb (on_call (@remote_call) ev) && negb (on_call (@local_call) ev)
                   && negb (on_call (@decode_call) ev && negb (on_call (@body_decode) ev)))
            (trace_of res) = true.
Proof.
  intros res; subst res.
  apply (run_always exec (CreateCredentialHandler r)
    (λ tr resp, ∀ request, omap decoded_credential tr = [request] →
       existsb authorized tr = true →
       CredentialRequest.Type_ request ∉ supported_types →
       resp = rest_Error "error unsupport  credential type"
                (GetJenkinsStatusCode (Errorf "error unsupport  credential type")) ∧
       forallb (λ ev, negb (on_call (@remote_call) ev) && negb (on_call (@local_call) ev)
                      && negb (on_call (@decode_call) ev && negb (on_call (@body_decode) ev)))
               tr = true)).
  unfold CreateCredentialHandler; walk; cbn; intros request Hreq Hauth Hty;
    simplify_eq/=; try done; wrong_type Hty.
Qed.

(** X2.  The create handler creates what it checked: every creation call is
    the one for the type of the decoded request, and it has the domain,
    the id and the folder of the existence check made before it; the
    domain is the one of the request, the folder the project of the
    path, and the id the one the payload decoding left in the struct. *)
Theorem create_checks_the_id_it_creates `{Package} {W : Type}
    (exec : ∀ T, Call T → W → T * W) (w : W) (r : Request) :
  let tr := trace_of (run exec (CreateCredentialHandler r) w) in
  ∀ request, omap decoded_credential tr = [request] →
    Forall (λ ev, create_type ev = Some (CredentialRequest.Type_ request))
           (List.filter (on_call (@create_call)) tr) ∧
    Forall (λ k, k = (CredentialRequest.Domain request, k.1.2, PathParam r "id"))
           (omap checked tr) ∧
    Forall (λ k, omap checked tr = [k] ∧ omap payload_id tr = [k.1.2])
           (omap create_args tr).
Proof.
  intros tr; subst tr.
  apply (run_always exec (CreateCredentialHandler r)
    (λ tr _, ∀ request, omap decoded_credential tr = [request] →
       Forall (λ ev, create_type ev = Some (CredentialRequest.Type_ request))
              (List.filter (on_call (@create_call)) tr) ∧
       Forall (λ k, k = (CredentialRequest.Domain request, k.1.2, PathParam r "id"))
              (omap checked tr) ∧
       Forall (λ k, omap checked tr = [k] ∧ omap payload_id tr = [k.1.2])
              (omap create_args tr))).
  unfold CreateCredentialHandler; walk; cbn; intros request Hreq; simplify_eq/=;
    repeat split; repeat constructor; try done; cbn; congruence.
Qed.

(** X3.  A handler that answers with a JSON body has had every call succeed,
    but for the failures it goes on after: an existence check of the
    create handler that failed with a status translated to 404, and a
    local-store call that answered [db.ErrNotFound]. *)
Theorem success_means_no_failure `{Package} {W : Type}
    (exec : ∀ T, Call T → W → T * W) (w : W)
    (h : Request → Prog Response) (r : Request) :
  h ∈ handlers →
  let res := run exec (h r) w in
  ∀ body, response_of res = WriteJson body →
    Forall (λ ev, ∀ e, event_error ev = Some e →
              db_not_found ev = true ∨
              (on_call (@existence_check) ev = true ∧
               GetJenkinsStatusCode e = http.StatusNotFound))
           (trace_of res).
Proof.
  intros Hh res; subst res.
  apply (run_always exec (h r)
    (λ tr resp, ∀ body, resp = WriteJson body →
       Forall (λ ev, ∀ e, event_error ev = Some e →
                 db_not_found ev = true ∨
                 (on_call (@existence_check) ev = true ∧
                  GetJenkinsStatusCode e = http.StatusNotFound))
              tr)).
  each_handler Hh; walk; intros body Hbody; try discriminate Hbody;
    repeat (apply List.Forall_cons; [cbn; intros ? ?; simplify_eq |]);
    try apply List.Forall_nil; bool_hyps.
  all: try (right; split; [done |]; by apply dec_stable).
  all: try (left; unfold db_not_found; cbn; rewrite andb_true_r || idtac;
            apply bool_decide_eq_true; f_equal; by apply dec_stable).
Qed.

(** X4.  The id in the body of a successful create, update or delete response
    is the id the remote mutation returned, the one remote mutation of
    the request. *)
Theorem success_returns_remote_id `{Package} {W : Type}
    (exec : ∀ T, Call T → W → T * W) (w : W)
    (h : Request → Prog Response) (r : Request) :
  h ∈ body_handlers →
  let res := run exec (h r) w in
  ∀ body, response_of res = WriteJson body →
    ∃ id, body = IdBody id ∧
          omap returned_id (trace_of res) = [Some id] ∧
          forallb (λ ev, implb (on_call (@remote_mutation) ev) (succeeded ev))
                  (trace_of res) = true.
Proof.
  intros Hh res; subst res.
  apply (run_always exec (h r)
    (λ tr resp, ∀ body, resp = WriteJson body →
       ∃ id, body = IdBody id ∧ omap returned_id tr = [Some id] ∧
             forallb (λ ev, implb (on_call (@remote_mutation) ev) (succeeded ev)) tr
             = true)).
  unfold body_handlers in Hh.
  repeat (apply elem_of_cons in Hh as [-> | Hh]); [| | | by apply elem_of_nil in Hh].
  - unfold CreateCredentialHandler; walk; intros body Hbody; simplify_eq;
      eexists; repeat split; reflexivity.
  - unfold DeleteCredentialHandler; walk; intros body Hbody; simplify_eq;
      eexists; repeat split; reflexivity.
  - unfold UpdateCredentialHandler; walk; intros body Hbody; simplify_eq;
      eexists; repeat split; reflexivity.
Qed.

(** X5.  Every error exit logs: when a handler answers with an error, the last
    thing it did was to log the message it answers with, and it logged
    nothing else; when it answers with a JSON body it logged nothing. *)
Theorem error_exit_logs_its_message `{Package} {W : Type}
    (exec : ∀ T, Call T → W → T * W) (w : W)
    (h : Request → Prog Response) (r : Request) :
  h ∈ handlers →
  let res := run exec (h r) w in
  match response_of res with
  | rest_Error msg _ =>
      last (trace_of res) ≫= logged = Some msg ∧
      count (on_call (@logger_call)) (trace_of res) = 1
  | _ => count (on_call (@logger_call)) (trace_of res) = 0
  end.
Proof.
  intros Hh res; subst res.
  apply (run_always exec (h r)
    (λ tr resp,
       match resp with
       | rest_Error msg _ =>
           last tr ≫= logged = Some msg ∧ count (on_call (@logger_call)) tr = 1
       | _ => count (on_call (@logger_call)) tr = 0
       end)).
  each_handler Hh; walk; cbn; try done.
Qed.

(** Settles a path for the two theorems on failures: decides the answers
    the path left open and the tests on [db.ErrNotFound]. *)
Ltac settle_failure :=
  repeat match goal with
         | |- context [Ev _ (_, ?o)] => is_var o; destruct o
         end;
  bool_hyps;
  repeat match goal with
         | H : ¬ (_ ≠ _) |- _ => apply dec_stable in H; subst
         end;
  cbn;
  repeat match goal with
         | |- context [bool_decide ?P] => destruct (bool_decide_reflect P)
         end;
  cbn; (split; [done | intros; try done; by eexists]).

(** X6.  A handler stops at the first failure it does not tolerate: after a
    call that answered with an error (other than an existence check or a
    [db.ErrNotFound]) nothing but the log entry follows, and the answer
    is an error.  In the update and the get handler a failed fetch of the
    credential is such a failure too. *)
Theorem stops_at_first_failure `{Package} {W : Type}
    (exec : ∀ T, Call T → W → T * W) (w : W) (r : Request) :
  (∀ h, h ∈ handlers →
     let res := run exec (h r) w in
     forallb (on_call (@logger_call)) (after hard_failure (trace_of res)) = true ∧
     (existsb hard_failure (trace_of res) = true →
      is_Some (error_message (response_of res)))) ∧
  (∀ h, h ∈ [UpdateCredentialHandler; GetCredentialHandler] →
     let res := run exec (h r) w in
     forallb (on_call (@logger_call))
             (after (failed (@existence_check)) (trace_of res)) = true ∧
     (existsb (failed (@existence_check)) (trace_of res) = true →
      is_Some (error_message (response_of res)))).
Proof.
  split; intros h Hh res; subst res.
  - apply (run_always exec (h r)
      (λ tr resp,
         forallb (on_call (@logger_call)) (after hard_failure tr) = true ∧
         (existsb hard_failure tr = true → is_Some (error_message resp)))).
    each_handler Hh; walk; settle_failure.
  - apply (run_always exec (h r)
      (λ tr resp,
         forallb (on_call (@logger_call)) (after (failed (@existence_check)) tr) = true ∧
         (existsb (failed (@existence_check)) tr = true →
          is_Some (error_message resp)))).
    repeat (apply elem_of_cons in Hh as [-> | Hh]); [| | by apply elem_of_nil in Hh].
    + unfold UpdateCredentialHandler; walk; settle_failure.
    + unfold GetCredentialHandler; walk; settle_failure.
Qed.

(** X9.  The update, the delete and the get handler act on the credential
    named in the path.  Update: the fetch is for the domain of the
    request, the path parameter [cid] and the project of the path; the
    struct handed to the payload decoder has [cid] as its id and nothing
    else set; the update call goes to the same domain and project, for
    the id the decoder left in the struct.  Delete: the remote deletion
    is for the domain of the body, [cid] and the project.  Get: the fetch
    and the content fetch are for the [domain] query parameter, [cid] and
    the project. *)
Theorem handlers_act_on_path_credential `{Package} {W : Type}
    (exec : ∀ T, Call T → W → T * W) (w : W) (r : Request) :
  let target domain := (domain, PathParam r "cid", PathParam r "id") in
  (let tr := trace_of (run exec (UpdateCredentialHandler r) w) in
   ∀ request, omap decoded_credential tr = [request] →
     Forall (λ k, k = target (CredentialRequest.Domain request)) (omap checked tr) ∧
     Forall (λ p, p = (PathParam r "cid", true)) (omap payload_prefill tr) ∧
     Forall (λ k, k = (CredentialRequest.Domain request, k.1.2, PathParam r "id") ∧
                  omap payload_id tr = [k.1.2])
            (omap update_args tr)) ∧
  (let tr := trace_of (run exec (DeleteCredentialHandler r) w) in
   ∀ request, omap decoded_delete tr = [request] →
     Forall (λ k, k = target (DeleteCredentialRequest.Domain request))
            (omap delete_args tr)) ∧
  (let tr := trace_of (run exec (GetCredentialHandler r) w) in
   Forall (λ k, k = target (Query_Get r "domain"))
          (omap checked tr ++ omap content_args tr)).
Proof.
  cbv zeta. split; [| split].
  - apply (run_always exec (UpdateCredentialHandler r)
      (λ tr _, ∀ request, omap decoded_credential tr = [request] →
         Forall (λ k, k = (CredentialRequest.Domain request, PathParam r "cid",
                           PathParam r "id")) (omap checked tr) ∧
         Forall (λ p, p = (PathParam r "cid", true)) (omap payload_prefill tr) ∧
         Forall (λ k, k = (CredentialRequest.Domain request, k.1.2, PathParam r "id") ∧
                      omap payload_id tr = [k.1.2])
                (omap update_args tr))).
    unfold UpdateCredentialHandler; walk; cbn; intros request Hreq; simplify_eq/=;
      repeat split; repeat constructor; done.
  - apply (run_always exec (DeleteCredentialHandler r)
      (λ tr _, ∀ request, omap decoded_delete tr = [request] →
         Forall (λ k, k = (DeleteCredentialRequest.Domain request, PathParam r "cid",
                           PathParam r "id")) (omap delete_args tr))).
    unfold DeleteCredentialHandler; walk; cbn; intros request Hreq; simplify_eq/=;
      repeat constructor; done.
  - apply (run_always exec (GetCredentialHandler r)
      (λ tr _, Forall (λ k, k = (Query_Get r "domain", PathParam r "cid",
                                 PathParam r "id"))
                      (omap checked tr ++ omap content_args tr))).
    unfold GetCredentialHandler; walk; cbn; repeat constructor; done.
Qed.

(** X10.  What a successful get request answers: the fetched credential,
    formatted together with the ownership row the select loaded (the
    zero row when it loaded none); the select asks for the project of the
    path and for the id and the domain the remote reported, not those of
    the request.  Without the [content] query parameter the fetch is the
    only remote call and no page is parsed; with it the content is filled
    in from the parsed page. *)
Theorem get_answers_formatted_remote_credential `{Package} {W : Type}
    (exec : ∀ T, Call T → W → T * W) (w : W) (r : Request) :
  let res := run exec (GetCredentialHandler r) w in
  ∀ body, response_of res = WriteJson body →
    ∃ credential row,
      omap fetched_credential (trace_of res) = [credential] ∧
      omap loaded (trace_of res) = [row] ∧
      omap select_condition (trace_of res)
      = [dbr.And [dbr.Eq models.ProjectIdColumn (PathParam r "id");
                  dbr.Eq models.ProjectCredentialIdColumn (gojenkins.Id credential);
                  dbr.Eq models.ProjectCredentialDomainColumn
                         (gojenkins.Domain credential)]] ∧
      let response := formatCredentialResponse credential (default models.zero row) in
      if decide (Query_Get r "content" = "")
      then body = CredentialBody response ∧
           count (on_call (@remote_call)) (trace_of res) = 1 ∧
           omap parsed_document (trace_of res) = []
      else ∃ doc, omap parsed_document (trace_of res) = [doc] ∧
                  body = CredentialBody (scrape_content doc response).
Proof.
  intros res; subst res.
  apply (run_always exec (GetCredentialHandler r)
    (λ tr resp, ∀ body, resp = WriteJson body →
       ∃ credential row,
         omap fetched_credential tr = [credential] ∧
         omap loaded tr = [row] ∧
         omap select_condition tr
         = [dbr.And [dbr.Eq models.ProjectIdColumn (PathParam r "id");
                     dbr.Eq models.ProjectCredentialIdColumn (gojenkins.Id credential);
                     dbr.Eq models.ProjectCredentialDomainColumn
                            (gojenkins.Domain credential)]] ∧
         let response := formatCredentialResponse credential (default models.zero row) in
         if decide (Query_Get r "content" = "")
         then body = CredentialBody response ∧
              count (on_call (@remote_call)) tr = 1 ∧
              omap parsed_document tr = []
         else ∃ doc, omap parsed_document tr = [doc] ∧
                     body = CredentialBody (scrape_content doc response))).
  unfold GetCredentialHandler; walk; intros body Hbody; simplify_eq.
  all: do 2 eexists; (split; [reflexivity |]); (split; [reflexivity |]);
    (split; [reflexivity |]); cbn;
    destruct (decide (Query_Get r "content" = "")); try done;
    eexists; split; reflexivity.
Qed.

(** X11.  The list handler selects the ownership rows of the project of the
    path, of every domain when the [domain] query parameter is empty and
    of that domain otherwise; it lists the remote credentials of that
    domain and project; a successful answer is [formatCredentialsResponse]
    of the remote list and the loaded rows.  Unlike the single get, it
    does not go on after [db.ErrNotFound]: the answer is then the error
    exit for that error. *)
Theorem list_selects_project_rows `{Package} {W : Type}
    (exec : ∀ T, Call T → W → T * W) (w : W) (r : Request) :
  let res := run exec (GetCredentialsHandler r) w in
  let domain := Query_Get r "domain" in
  Forall (λ k, k = (domain, PathParam r "id")) (omap list_args (trace_of res)) ∧
  Forall (λ cond, ∀ row, matches cond row = true ↔
                    models.ProjectId row = PathParam r "id" ∧
                    (domain ≠ "" → models.Domain row = domain))
         (omap select_condition (trace_of res)) ∧
  (∀ body, response_of res = WriteJson body →
     ∃ credentials rows,
       omap listed (trace_of res) = [credentials] ∧
       omap loaded_rows (trace_of res) = [rows] ∧
       body = CredentialsBody (formatCredentialsResponse credentials rows)) ∧
  (existsb db_not_found (trace_of res) = true →
   response_of res
   = rest_Error (Error (ErrDb db.ErrNotFound))
                (GetJenkinsStatusCode (ErrDb db.ErrNotFound))).
Proof.
  intros res domain; subst res domain.
  apply (run_always exec (GetCredentialsHandler r)
    (λ tr resp,
       Forall (λ k, k = (Query_Get r "domain", PathParam r "id")) (omap list_args tr) ∧
       Forall (λ cond, ∀ row, matches cond row = true ↔
                         models.ProjectId row = PathParam r "id" ∧
                         (Query_Get r "domain" ≠ "" →
                          models.Domain row = Query_Get r "domain"))
              (omap select_condition tr) ∧
       (∀ body, resp = WriteJson body →
          ∃ credentials rows,
            omap listed tr = [credentials] ∧ omap loaded_rows tr = [rows] ∧
            body = CredentialsBody (formatCredentialsResponse credentials rows)) ∧
       (existsb db_not_found tr = true →
        resp = rest_Error (Error (ErrDb db.ErrNotFound))
                          (GetJenkinsStatusCode (ErrDb db.ErrNotFound))))).
  unfold GetCredentialsHandler; walk; cbn.
  all: split; [repeat constructor |].
  all: split; [| split; [intros body Hbody; simplify_eq; try (do 2 eexists; done)
                        | intros Hnf; try done ]].
  all: try done; try apply Forall_nil.
  all: try (rewrite orb_false_r in Hnf; bool_hyps; by simplify_eq).
  all: constructor; [| constructor]; intros row; unfold IsNull;
    destruct (decide (Query_Get r "domain" = "")) as [Hd | Hd];
    rewrite ?bool_decide_eq_true_2, ?bool_decide_eq_false_2 by done; cbn;
    rewrite ?andb_true_iff, ?bool_decide_eq_true; intuition.
Qed.

(** X8.  Every request is authorized at most once, and always for the user of
    the request, the project of the path and the roles ProjectOwner and
    ProjectMaintainer; the only requests that are not authorized at all
    are those whose body does not decode. *)
Theorem authorization_is_for_the_path_project `{Package} {W : Type}
    (exec : ∀ T, Call T → W → T * W) (w : W)
    (h : Request → Prog Response) (r : Request) :
  h ∈ handlers →
  let tr := trace_of (run exec (h r) w) in
  (omap role_check_args tr
   = [(GetUserNameFromRequest r, PathParam r "id", [ProjectOwner; ProjectMaintainer])] ∨
   omap role_check_args tr = [] ∧ existsb (failed (@body_decode)) tr = true).
Proof.
  intros Hh tr; subst tr.
  apply (run_always exec (h r)
    (λ tr _,
       omap role_check_args tr
       = [(GetUserNameFromRequest r, PathParam r "id", [ProjectOwner; ProjectMaintainer])] ∨
       omap role_check_args tr = [] ∧ existsb (failed (@body_decode)) tr = true)).
  each_handler Hh; walk; cbn; first [by left | by right].
Qed.

(** X7.  An error answer has a cause.  The delete, the get and the list
    handler answer with an error only when a call answered with one.
    The create handler does so also when the existence check returned a
    credential, and when the type of the request is not supported; the
    update handler also when the type of the fetched credential maps to
    no supported type, and it then names that type in the message. *)
Theorem error_has_a_cause `{Package} {W : Type}
    (exec : ∀ T, Call T → W → T * W) (w : W) (r : Request) :
  (∀ h, h ∈ [DeleteCredentialHandler; GetCredentialHandler; GetCredentialsHandler] →
     let res := run exec (h r) w in
     is_Some (error_message (response_of res)) →
     existsb (λ ev, negb (succeeded ev)) (trace_of res) = true) ∧
  (let res := run exec (CreateCredentialHandler r) w in
   is_Some (error_message (response_of res)) →
   existsb (λ ev, negb (succeeded ev)) (trace_of res) = true ∨
   existsb (λ ev, bool_decide (is_Some (fetched_credential ev))) (trace_of res) = true ∨
   error_message (response_of res) = Some "error unsupport  credential type") ∧
  (let res := run exec (UpdateCredentialHandler r) w in
   is_Some (error_message (response_of res)) →
   existsb (λ ev, negb (succeeded ev)) (trace_of res) = true ∨
   ∃ credential,
     omap fetched_credential (trace_of res) = [credential] ∧
     let credentialType :=
       default "" (CredentialTypeMap !! gojenkins.TypeName credential) in
     (credentialType ∉ supported_types) ∧
     error_message (response_of res)
     = Some ("error unsupport credential type " +:+ credentialType)).
Proof.
  split; [| split]; cbv zeta.
  - intros h Hh.
    apply (run_always exec (h r)
      (λ tr resp, is_Some (error_message resp) →
                  existsb (λ ev, negb (succeeded ev)) tr = true)).
    repeat (apply elem_of_cons in Hh as [-> | Hh]); [| | | by apply elem_of_nil in Hh].
    + unfold DeleteCredentialHandler; walk; cbn; intros [msg Hmsg]; done.
    + unfold GetCredentialHandler; walk; cbn; intros [msg Hmsg]; done.
    + unfold GetCredentialsHandler; walk; cbn; intros [msg Hmsg]; done.
  - apply (run_always exec (CreateCredentialHandler r)
      (λ tr resp, is_Some (error_message resp) →
         existsb (λ ev, negb (succeeded ev)) tr = true ∨
         existsb (λ ev, bool_decide (is_Some (fetched_credential ev))) tr = true ∨
         error_message resp = Some "error unsupport  credential type")).
    unfold CreateCredentialHandler; walk; cbn; intros [msg Hmsg]; try done;
      first [ by left | by right; left | by right; right ].
  - apply (run_always exec (UpdateCredentialHandler r)
      (λ tr resp, is_Some (error_message resp) →
         existsb (λ ev, negb (succeeded ev)) tr = true ∨
         ∃ credential,
           omap fetched_credential tr = [credential] ∧
           let credentialType :=
             default "" (CredentialTypeMap !! gojenkins.TypeName credential) in
           (credentialType ∉ supported_types) ∧
           error_message resp
           = Some ("error unsupport credential type " +:+ credentialType))).
    unfold UpdateCredentialHandler; walk; cbn; intros [msg Hmsg]; try done;
      first [ by left | right ].
    eexists; split; [reflexivity |]. split; [| reflexivity].
    unfold supported_types. rewrite !not_elem_of_cons. repeat split; try done.
    apply not_elem_of_nil.
Qed.

(** ** The content a get request scrapes from the configuration page *)

Lemma Each_assign_snoc (selections : list Selection) (selection : Selection)
    (value : Selection → string) (field : string) :
  Each_assign (selections ++ [selection]) value field = value selection.
Proof. unfold Each_assign. by rewrite foldl_app. Qed.

Lemma Each_assign_default (selections : list Selection) (value : Selection → string)
    (field : string) :
  Each_assign selections value field = default field (value <$> last selections).
Proof.
  induction selections as [| selection selections _] using rev_ind; [done |].
  by rewrite Each_assign_snoc, last_snoc.
Qed.

(** X12.  [Each] leaves in the field the value of the last selection; with no
    selection the field keeps what it had. *)
Theorem Each_assign_last (selections : list Selection) (value : Selection → string)
    (field : string) :
  Each_assign selections value field = default field (value <$> last selections).
Proof. apply Each_assign_default. Qed.

Lemma Unmarshal_into_other (object : list (string * JSON)) (m : gmap string JSON)
    (key : string) :
  key ∉ object.*1 → Unmarshal_into object m !! key = m !! key.
Proof.
  revert m. induction object as [| [k v] object IH]; intros m Hk; [done |].
  rewrite fmap_cons, not_elem_of_cons in Hk. destruct Hk as [Hne Hk].
  change (Unmarshal_into object (<[k := v]> m) !! key = m !! key).
  rewrite IH by done. by rewrite lookup_insert_ne.
Qed.

Lemma Unmarshal_into_key (object : list (string * JSON)) (m : gmap string JSON)
    (key : string) (value : JSON) :
  NoDup object.*1 → (key, value) ∈ object →
  Unmarshal_into object m !! key = Some value.
Proof.
  revert m. induction object as [| [k v] object IH]; intros m Hnd Hin.
  - by apply elem_of_nil in Hin.
  - rewrite fmap_cons, NoDup_cons in Hnd. destruct Hnd as [Hk Hnd].
    change (Unmarshal_into object (<[k := v]> m) !! key = Some value).
    apply elem_of_cons in Hin as [Heq | Hin].
    + simplify_eq. rewrite Unmarshal_into_other by done. apply lookup_insert_eq.
    + by apply IH.
Qed.

(** X13.  Unmarshalling an object into a map sets the keys of the object and
    keeps every other key: a key that is not in the object reads as
    before, and a key of an object without duplicate keys reads as the
    value the object gives it. *)
Theorem Unmarshal_into_lookup (object : list (string * JSON)) (m : gmap string JSON)
    (key : string) :
  (key ∉ object.*1 → Unmarshal_into object m !! key = m !! key) ∧
  (∀ value, NoDup object.*1 → (key, value) ∈ object →
            Unmarshal_into object m !! key = Some value).
Proof.
  split; [apply Unmarshal_into_other | intros value; apply Unmarshal_into_key].
Qed.

(** X14.  Scraping changes nothing but the content of a response, and of the
    content only the keys the three content structs marshal to.  It never
    sets a password.  A response of another type than kubeconfig,
    username_password and ssh (a secret text, for one) is returned as it
    is. *)
Theorem scrape_content_frame (doc : Document) (response : CredentialResponse.t) :
  let scraped := scrape_content doc response in
  scraped = CredentialResponse.with_Content (CredentialResponse.Content scraped) response ∧
  (∀ key, key ∉ content_keys →
     CredentialResponse.Content scraped !! key
     = CredentialResponse.Content response !! key) ∧
  CredentialResponse.Content scraped !! "password"
  = CredentialResponse.Content response !! "password" ∧
  (CredentialResponse.Type_ response
     ∉ [CredentialTypeKubeConfig; CredentialTypeUsernamePassword; CredentialTypeSsh] →
   scraped = response).
Proof.
  cbv zeta. unfold scrape_content.
  repeat case_decide; cbn -[Unmarshal_into].
  all: split; [by destruct response |].
  all: split; [intros key Hkey | split; [| intros Hty]].
  all: try reflexivity.
  all: try (exfalso; apply Hty; match goal with Heq : _ = _ |- _ => rewrite Heq end;
            in_list).
  all: apply Unmarshal_into_other; cbn; repeat case_decide; try done; cbn;
    unfold content_keys in *; rewrite ?elem_of_cons, ?elem_of_nil in *; intuition congruence.
Qed.


(** ** The request structs of the remote API *)

(** X16.  The constructor of a creation request and the constructor of the
    credential build the same credential. *)
Theorem create_request_wraps_credential
    (id username passphrase privateKey password secret description : string) :
  gojenkins.CreateSshCredentialRequest.Credentials
    (gojenkins.NewCreateSshCredentialRequest id username passphrase privateKey description)
  = gojenkins.NewSshCredential id username passphrase privateKey description ∧
  gojenkins.CreateUsernamePasswordCredentialRequest.Credentials
    (gojenkins.NewCreateUsernamePasswordRequest id username password description)
  = gojenkins.NewUsernamePasswordCredential id username password description ∧
  gojenkins.CreateSecretTextCredentialRequest.Credentials
    (gojenkins.NewCreateSecretTextCredentialRequest id secret description)
  = gojenkins.NewSecretTextCredential id secret description.
Proof. repeat split. Qed.

(** X17.  No argument of a credential constructor is dropped or put in the
    place of another: two credentials built by a constructor are equal
    only if all their arguments are. *)
Theorem credential_constructors_injective :
  (∀ id username passphrase privateKey description id' username' passphrase'
     privateKey' description',
     gojenkins.NewSshCredential id username passphrase privateKey description
     = gojenkins.NewSshCredential id' username' passphrase' privateKey' description' →
     (id, username, passphrase, privateKey, description)
     = (id', username', passphrase', privateKey', description')) ∧
  (∀ id username password description id' username' password' description',
     gojenkins.NewUsernamePasswordCredential id username password description
     = gojenkins.NewUsernamePasswordCredential id' username' password' description' →
     (id, username, password, description) = (id', username', password', description')) ∧
  (∀ id secret description id' secret' description',
     gojenkins.NewSecretTextCredential id secret description
     = gojenkins.NewSecretTextCredential id' secret' description' →
     (id, secret, description) = (id', secret', description')).
Proof.
  repeat split; intros; simplify_eq; reflexivity.
Qed.

(** ** The handlers in the model of the two stores *)

Section Stores.
Context `{Package} `{Libraries}.

(** Settles a path for the theorems on the stores: runs the events of
    the path on the stores. *)
Ltac on_stores :=
  cbn [foldl apply_event succeeded event_error call_error store_effect fst snd id];
  repeat match goal with
         | |- context [if succeeded ?ev then _ else _] => destruct (succeeded ev)
         end;
  cbn [fst snd].

(** X18.  A request changes the stores only through a remote mutation that
    succeeds: a request without one (one that is refused, that fails to
    decode, or whose remote call fails) leaves both stores as they were.
    The two get handlers never change a store, and the update handler
    never changes the table of ownership rows. *)
Theorem request_without_mutation_changes_nothing (w : World) (r : Request) :
  (∀ h, h ∈ handlers →
     let res := run world_exec (h r) w in
     existsb (λ ev, on_call (@remote_mutation) ev && succeeded ev) (trace_of res) = false →
     stores (world_of res) = stores w) ∧
  (∀ h, h ∈ get_handlers → stores (world_of (run world_exec (h r) w)) = stores w) ∧
  project_credential (world_of (run world_exec (UpdateCredentialHandler r) w))
  = project_credential w.
Proof.
  split; [| split].
  - intros h Hh res Hno; subst res. rewrite run_world_stores.
    revert Hno. generalize (stores w).
    apply (run_always world_exec (h r)
      (λ tr _, ∀ s, existsb (λ ev, on_call (@remote_mutation) ev && succeeded ev) tr = false →
                    foldl (λ s ev, apply_event ev s) s tr = s)).
    each_handler Hh; walk; intros Hno; cbn in Hno; try discriminate Hno;
      on_stores; reflexivity.
  - intros h Hh. rewrite run_world_stores. generalize (stores w).
    apply (run_always world_exec (h r)
      (λ tr _, ∀ s, foldl (λ s ev, apply_event ev s) s tr = s)).
    unfold get_handlers in Hh.
    repeat (apply elem_of_cons in Hh as [-> | Hh]); [| | by apply elem_of_nil in Hh].
    + unfold GetCredentialHandler; walk; on_stores; reflexivity.
    + unfold GetCredentialsHandler; walk; on_stores; reflexivity.
  - change (project_credential (world_of (run world_exec (UpdateCredentialHandler r) w)))
      with (stores (world_of (run world_exec (UpdateCredentialHandler r) w))).2.
    rewrite run_world_stores.
    change (project_credential w) with (stores w).2. generalize (stores w).
    apply (run_always world_exec (UpdateCredentialHandler r)
      (λ tr _, ∀ s, (foldl (λ s ev, apply_event ev s) s tr).2 = s.2)).
    unfold UpdateCredentialHandler; walk; on_stores; reflexivity.
Qed.





End Stores.

(** ** The further properties at concrete requests *)

(** Decides a closed decidable proposition by computation. *)
Ltac by_computation := apply (bool_decide_unpack _); vm_compute; exact I.

Lemma create_unsupported_type_witness :
  omap decoded_credential (trace_of more.unsupported) = [more.decoded_certificate] ∧
  existsb authorized (trace_of more.unsupported) = true ∧
  (CredentialRequest.Type_ more.decoded_certificate ∉ supported_types) ∧
  response_of more.unsupported = rest_Error "error unsupport  credential type" 500.
Proof.
  assert (H1 : omap decoded_credential (trace_of more.unsupported)
               = [more.decoded_certificate]) by (vm_compute; reflexivity).
  assert (H2 : existsb authorized (trace_of more.unsupported) = true)
    by (vm_compute; reflexivity).
  assert (H3 : CredentialRequest.Type_ more.decoded_certificate ∉ supported_types)
    by by_computation.
  split; [exact H1 |]. split; [exact H2 |]. split; [exact H3 |].
  exact (proj1 (@create_unsupported_type more.package World more.exec (sample.nothing [])
                  more.create_certificate more.decoded_certificate H1 H2 H3)).
Defined.

Lemma create_checks_the_id_it_creates_witness :
  omap decoded_credential (trace_of sample.create_ok) = [more.decoded_c1] ∧
  omap create_args (trace_of sample.create_ok) = [("", "c1", "p1")] ∧
  Forall (λ k, omap checked (trace_of sample.create_ok) = [k] ∧
               omap payload_id (trace_of sample.create_ok) = [k.1.2])
         (omap create_args (trace_of sample.create_ok)).
Proof.
  assert (H1 : omap decoded_credential (trace_of sample.create_ok) = [more.decoded_c1])
    by (vm_compute; reflexivity).
  split; [exact H1 |]. split; [vm_compute; reflexivity |].
  exact (proj2 (proj2 (@create_checks_the_id_it_creates sample.package World sample.exec
                         (sample.nothing []) sample.create_c1 more.decoded_c1 H1))).
Defined.

Lemma success_means_no_failure_witness :
  sample.Create ∈ @handlers sample.package ∧
  response_of sample.create_ok = WriteJson (IdBody "c1") ∧
  Forall (λ ev, ∀ e, event_error ev = Some e →
            db_not_found ev = true ∨
            (on_call (@existence_check) ev = true ∧
             @GetJenkinsStatusCode sample.package e = http.StatusNotFound))
         (trace_of sample.create_ok).
Proof.
  assert (Hh : sample.Create ∈ @handlers sample.package) by in_list.
  assert (Hb : response_of sample.create_ok = WriteJson (IdBody "c1"))
    by (vm_compute; reflexivity).
  split; [exact Hh |]. split; [exact Hb |].
  exact (@success_means_no_failure sample.package World sample.exec (sample.nothing [])
           sample.Create sample.create_c1 Hh (IdBody "c1") Hb).
Defined.

Lemma success_returns_remote_id_witness :
  sample.Delete ∈ @body_handlers sample.package ∧
  response_of sample.delete_ok = WriteJson (IdBody "c1") ∧
  ∃ id, IdBody "c1" = IdBody id ∧
        omap returned_id (trace_of sample.delete_ok) = [Some id] ∧
        forallb (λ ev, implb (on_call (@remote_mutation) ev) (succeeded ev))
                (trace_of sample.delete_ok) = true.
Proof.
  assert (Hh : sample.Delete ∈ @body_handlers sample.package) by in_list.
  assert (Hb : response_of sample.delete_ok = WriteJson (IdBody "c1"))
    by (vm_compute; reflexivity).
  split; [exact Hh |]. split; [exact Hb |].
  exact (@success_returns_remote_id sample.package World sample.exec (sample.owned [])
           sample.Delete sample.delete_c1 Hh (IdBody "c1") Hb).
Defined.

Lemma error_exit_logs_its_message_witness :
  sample.Create ∈ @handlers sample.package ∧
  last (trace_of sample.create_check_fails) ≫= logged = Some "Server Error" ∧
  count (on_call (@logger_call)) (trace_of sample.create_check_fails) = 1.
Proof.
  assert (Hh : sample.Create ∈ @handlers sample.package) by in_list.
  split; [exact Hh |].
  exact (@error_exit_logs_its_message sample.package World sample.exec
           (sample.nothing [Some (ErrRemote 500 "Server Error")])
           sample.Create sample.create_c1 Hh).
Defined.

Lemma stops_at_first_failure_witness :
  sample.Delete ∈ @handlers sample.package ∧
  existsb hard_failure (trace_of sample.delete_local_fails) = true ∧
  forallb (on_call (@logger_call)) (after hard_failure (trace_of sample.delete_local_fails))
  = true ∧
  is_Some (error_message (response_of sample.delete_local_fails)).
Proof.
  assert (Hh : sample.Delete ∈ @handlers sample.package) by in_list.
  assert (Hf : existsb hard_failure (trace_of sample.delete_local_fails) = true)
    by (vm_compute; reflexivity).
  destruct (proj1 (@stops_at_first_failure sample.package World sample.exec
                     (sample.owned [None; Some (ErrOther "connection refused")])
                     sample.delete_c1) sample.Delete Hh) as [Hafter Herr].
  split; [exact Hh |]. split; [exact Hf |]. split; [exact Hafter | exact (Herr Hf)].
Defined.

Lemma handlers_act_on_path_credential_witness :
  omap decoded_credential (trace_of sample.update_ssh) = [more.decoded_c2] ∧
  omap update_args (trace_of sample.update_ssh) = [("", "c2", "p1")] ∧
  Forall (λ k, k = ("", "c2", "p1")) (omap checked (trace_of sample.update_ssh)) ∧
  Forall (λ p, p = ("c2", true)) (omap payload_prefill (trace_of sample.update_ssh)).
Proof.
  assert (H1 : omap decoded_credential (trace_of sample.update_ssh) = [more.decoded_c2])
    by (vm_compute; reflexivity).
  destruct (proj1 (@handlers_act_on_path_credential sample.package World sample.exec
                     (sample.others []) sample.update_c2) more.decoded_c2 H1)
    as (Hchecked & Hprefill & _).
  split; [exact H1 |]. split; [vm_compute; reflexivity |].
  split; [exact Hchecked | exact Hprefill].
Defined.

Lemma get_answers_formatted_remote_credential_witness :
  ∃ body, response_of more.get_content = WriteJson body ∧
    ∃ doc, omap parsed_document (trace_of more.get_content) = [doc] ∧
      body = CredentialBody
               (scrape_content doc
                  (@formatCredentialResponse more.package sample.c1 sample.row_c1)).
Proof.
  eexists. split; [vm_compute; reflexivity |].
  destruct (@get_answers_formatted_remote_credential more.package World more.exec
              (sample.owned []) more.get_c1_content _
              ltac:(vm_compute; reflexivity))
    as (credential & row & Hc & Hrow & _ & Hbody).
  assert (credential = sample.c1) as -> by (vm_compute in Hc; by injection Hc).
  assert (row = Some sample.row_c1) as -> by (vm_compute in Hrow; by injection Hrow).
  exact Hbody.
Defined.

Lemma list_selects_project_rows_witness :
  existsb db_not_found (trace_of more.list_not_found) = true ∧
  response_of more.list_not_found = rest_Error "dbr: not found" 500.
Proof.
  assert (H1 : existsb db_not_found (trace_of more.list_not_found) = true)
    by (vm_compute; reflexivity).
  split; [exact H1 |].
  exact (proj2 (proj2 (proj2 (@list_selects_project_rows more.package World more.exec
                                (sample.owned [None; Some (ErrDb db.ErrNotFound)])
                                more.list_p1))) H1).
Defined.

Lemma Unmarshal_into_lookup_witness :
  ("name" ∉ [("id", JString "c1"); ("username", JString "u")].*1) ∧
  Unmarshal_into [("id", JString "c1"); ("username", JString "u")]
                 {[ "name" := JString "n"; "id" := JString "old" ]} !! "name"
  = Some (JString "n") ∧
  Unmarshal_into [("id", JString "c1"); ("username", JString "u")]
                 {[ "name" := JString "n"; "id" := JString "old" ]} !! "id"
  = Some (JString "c1").
Proof.
  assert (H1 : "name" ∉ [("id", JString "c1"); ("username", JString "u")].*1)
    by by_computation.
  split; [exact H1 |]. split.
  - etrans; [exact (proj1 (Unmarshal_into_lookup _ _ "name") H1) |].
    vm_compute. reflexivity.
  - apply (proj2 (Unmarshal_into_lookup _ _ "id")); [by_computation | in_list].
Defined.

Lemma scrape_content_frame_witness :
  (CredentialResponse.Type_ more.formatted_c3
     ∉ [CredentialTypeKubeConfig; CredentialTypeUsernamePassword; CredentialTypeSsh]) ∧
  scrape_content more.page more.formatted_c3 = more.formatted_c3.
Proof.
  assert (H1 : CredentialResponse.Type_ more.formatted_c3
                 ∉ [CredentialTypeKubeConfig; CredentialTypeUsernamePassword;
                    CredentialTypeSsh]) by by_computation.
  split; [exact H1 |].
  exact (proj2 (proj2 (proj2 (scrape_content_frame more.page more.formatted_c3))) H1).
Defined.


Lemma credential_constructors_injective_witness :
  gojenkins.NewSecretTextCredential "t1" "s3cret" "token"
  = gojenkins.NewSecretTextCredential "t1" "s3cret" "token" ∧
  ("t1", "s3cret", "token") = ("t1", "s3cret", "token").
Proof.
  split; [reflexivity |].
  exact (proj2 (proj2 credential_constructors_injective)
               "t1" "s3cret" "token" "t1" "s3cret" "token" eq_refl).
Defined.

Lemma request_without_mutation_changes_nothing_witness :
  sample.Delete ∈ @handlers sample.package ∧
  existsb (λ ev, on_call (@remote_mutation) ev && succeeded ev)
          (trace_of (run sample.exec (sample.Delete sample.delete_c1)
                         (sample.owned [Some (ErrRemote 503 "Unavailable")]))) = false ∧
  stores (world_of (run sample.exec (sample.Delete sample.delete_c1)
                        (sample.owned [Some (ErrRemote 503 "Unavailable")])))
  = stores (sample.owned [Some (ErrRemote 503 "Unavailable")]).
Proof.
  assert (Hh : sample.Delete ∈ @handlers sample.package) by in_list.
  assert (Hno : existsb (λ ev, on_call (@remote_mutation) ev && succeeded ev)
                  (trace_of (run sample.exec (sample.Delete sample.delete_c1)
                                 (sample.owned [Some (ErrRemote 503 "Unavailable")])))
                = false) by (vm_compute; reflexivity).
  split; [exact Hh |]. split; [exact Hno |].
  exact (proj1 (@request_without_mutation_changes_nothing sample.package sample.libraries
                  (sample.owned [Some (ErrRemote 503 "Unavailable")]) sample.delete_c1)
               sample.Delete Hh Hno).
Defined.


Lemma authorization_is_for_the_path_project_witness :
  sample.Create ∈ @handlers sample.package ∧
  (omap role_check_args (trace_of sample.create_ok)
   = [("alice", "p1", ["owner"; "maintainer"])] ∨
   omap role_check_args (trace_of sample.create_ok) = [] ∧
   existsb (failed (@body_decode)) (trace_of sample.create_ok) = true).
Proof.
  assert (Hh : sample.Create ∈ @handlers sample.package) by in_list.
  split; [exact Hh |].
  exact (@authorization_is_for_the_path_project sample.package World sample.exec
           (sample.nothing []) sample.Create sample.create_c1 Hh).
Defined.

Lemma error_has_a_cause_witness :
  is_Some (error_message (response_of sample.delete_local_fails)) ∧
  existsb (λ ev, negb (succeeded ev)) (trace_of sample.delete_local_fails) = true.
Proof.
  assert (H1 : is_Some (error_message (response_of sample.delete_local_fails)))
    by (eexists; vm_compute; reflexivity).
  split; [exact H1 |].
  exact (proj1 (@error_has_a_cause sample.package World sample.exec
                  (sample.owned [None; Some (ErrOther "connection refused")])
                  sample.delete_c1)
               sample.Delete ltac:(in_list) H1).
Defined.
